(** * find_trna_syn_genes.py: a shallow embedding and its properties

    The script queries the Ensembl REST service for human tRNA synthetase
    genes: for each of 37 symbol patterns it searches the cross-references,
    looks every returned cross-reference up, keeps the lookups that pass two
    filters, removes duplicate gene ids and writes a CSV file.

    The embedding follows the Python text function by function.  The remote
    service is a parameter: the outcome of the [n]-th request, given the
    request.  A computation threads the number of requests made so far and
    produces the list of its observable events (requests with their
    outcomes, console output, sleeps, the file written).  An uncaught Python
    exception is the result [Raise]. *)

From Stdlib Require Import List String Ascii ZArith Bool Arith Lia.
From Stdlib Require Import DecimalString.
Import ListNotations.
Local Open Scope string_scope.
Local Open Scope list_scope.
Set Warnings "-register-all".

(** ** Python values obtained from JSON *)

(** What [response.json()] yields.  [JNull] is Python's [None]; an object is
    the parsed [dict], a binding list read by its first binding for a key.
    Numbers are the integers (the service's [start], [end] and [strand]);
    non-integer numbers are left out of the model. *)
Inductive json : Type :=
| JNull
| JBool (b : bool)
| JNum (n : Z)
| JStr (s : string)
| JList (items : list json)
| JObj (fields : list (string * json)).

(** The exceptions the script itself can let escape. *)
Inductive exn : Type :=
| TypeError
| AttributeError.

Inductive result (A : Type) : Type :=
| Ok (a : A)
| Raise (e : exn).
Arguments Ok {A} a.
Arguments Raise {A} e.

Definition rbind {A B} (r : result A) (f : A -> result B) : result B :=
  match r with
  | Ok a => f a
  | Raise e => Raise e
  end.

Notation "x <~ r ;; k" := (rbind r (fun x => k))
  (at level 61, r at next level, right associativity).

(** [bool(v)]: the truth value used by [if v:]. *)
Definition truthy (v : json) : bool :=
  match v with
  | JNull => false
  | JBool b => b
  | JNum n => negb (Z.eqb n 0)
  | JStr s => negb (String.eqb s "")
  | JList items => match items with [] => false | _ :: _ => true end
  | JObj fields => match fields with [] => false | _ :: _ => true end
  end.

Fixpoint assoc (k : string) (fields : list (string * json)) : option json :=
  match fields with
  | [] => None
  | (k', v) :: rest => if String.eqb k k' then Some v else assoc k rest
  end.

(** [d.get(k)] on a dict: the value, or [None] when the key is missing. *)
Definition dict_get (fields : list (string * json)) (k : string) : json :=
  match assoc k fields with
  | Some v => v
  | None => JNull
  end.

(** [v.get(k)] on any value: only a dict has the method. *)
Definition py_get (v : json) (k : string) : result json :=
  match v with
  | JObj fields => Ok (dict_get fields k)
  | _ => Raise AttributeError
  end.

(** [v == s] for a [str] [s]: only an equal [str] is equal to it. *)
Definition eq_str (s : string) (v : json) : bool :=
  match v with
  | JStr t => String.eqb s t
  | _ => false
  end.

(** [p in s] for two [str]: [p] occurs in [s] as a substring. *)
Fixpoint contains (p s : string) : bool :=
  prefix p s ||
  match s with
  | EmptyString => false
  | String _ s' => contains p s'
  end.

(** [p in v] for a [str] [p]: substring of a [str], element of a list, key of
    a dict; the other values are not containers. *)
Definition py_in (p : string) (v : json) : result bool :=
  match v with
  | JStr s => Ok (contains p s)
  | JList items => Ok (existsb (eq_str p) items)
  | JObj fields => Ok (existsb (fun kv => String.eqb p (fst kv)) fields)
  | JNull | JBool _ | JNum _ => Raise TypeError
  end.

(** [str(i)] for a natural number. *)
Definition str_of_nat (n : nat) : string :=
  NilEmpty.string_of_uint (Nat.to_uint n).

(** [range(lo, hi)]. *)
Definition range (lo hi : nat) : list nat := seq lo (hi - lo).

(** [[str(i) for i in range(1,23)] + ['X', 'Y', 'MT']] *)
Definition standard_chromosomes : list string :=
  map str_of_nat (range 1 23) ++ ["X"; "Y"; "MT"].

(** [chromosome in [...]]: list membership by [==]. *)
Definition on_standard_chromosome (chromosome : json) : bool :=
  existsb (fun c => eq_str c chromosome) standard_chromosomes.

(** ** The remote service and the observable events *)

Inductive request : Type :=
| XrefsSymbol (species query : string)   (* GET /xrefs/symbol/{species}/{query}? *)
| LookupId (gene_id : json).             (* GET /lookup/id/{gene_id}?expand=1 *)

(** What one [requests.get] meets: no response at all (the call raises a
    [RequestException]), or a response with its status code and its body,
    [None] when the body is not JSON. *)
Inductive http_outcome : Type :=
| NoResponse (why : string)
| Response (status_code : Z) (body : option json).

(** The subclasses of [requests.exceptions.RequestException] at play.  The
    decoding error of [response.json()] is one of them (requests 2.27 and
    later), so the [except] clause of the client catches all three. *)
Inductive RequestException : Type :=
| ConnectionError (why : string)     (* raised by [requests.get] *)
| HTTPError (status_code : Z)        (* raised by [raise_for_status] *)
| JSONDecodeError.                   (* raised by [response.json] *)

(** A row of the table, as the dict appended to [all_genes]. *)
Record GeneRecord : Type := mkGeneRecord {
  gene_id : json;
  symbol : json;
  description : json;
  chromosome : json;
  start : json;
  end_ : json;
  strand : json;
  biotype : json
}.

Inductive event : Type :=
| Http (req : request) (out : http_outcome)
| Print (text : string)
| PrintError (text : string) (e : RequestException)   (* print(f"{text}{e}") *)
| PrintFrame (rows : list GeneRecord)                 (* print of a data frame *)
| Sleep100ms                                          (* time.sleep(0.1) *)
| ToCsv (file : string) (rows : list GeneRecord).

(** ** Computations *)

(** From the number of requests made so far: a result, the new number of
    requests, and the events of this computation in order. *)
Definition M (A : Type) : Type := nat -> result A * nat * list event.

Definition ret {A} (a : A) : M A := fun n => (Ok a, n, []).

Definition bind {A B} (m : M A) (f : A -> M B) : M B :=
  fun n =>
    match m n with
    | (Ok a, n1, l1) =>
        match f a n1 with
        | (r, n2, l2) => (r, n2, l1 ++ l2)
        end
    | (Raise e, n1, l1) => (Raise e, n1, l1)
    end.

Definition lift {A} (r : result A) : M A := fun n => (r, n, []).

Definition emit (e : event) : M unit := fun n => (Ok tt, n, [e]).

Notation "x <- m ;; k" := (bind m (fun x => k))
  (at level 61, m at next level, right associativity).
Notation "m ;;; k" := (bind m (fun _ => k))
  (at level 61, right associativity).

Definition print (text : string) : M unit := emit (Print text).
Definition sleep_100ms : M unit := emit Sleep100ms.

(** [raise_for_status]: 4xx and 5xx status codes raise [HTTPError]. *)
Definition is_error_status (status_code : Z) : bool :=
  (400 <=? status_code)%Z && (status_code <? 600)%Z.

(** The [try] block of both client methods: [requests.get], then
    [raise_for_status], then [response.json()]. *)
Definition try_get_json (out : http_outcome) : RequestException + json :=
  match out with
  | NoResponse why => inl (ConnectionError why)
  | Response status_code body =>
      if is_error_status status_code then inl (HTTPError status_code)
      else match body with
           | None => inl JSONDecodeError
           | Some v => inr v
           end
  end.

Section Ensembl.

(** The service: the outcome of the [n]-th request of the run. *)
Variable service : nat -> request -> http_outcome.

Definition requests_get (req : request) : M http_outcome :=
  fun n => (Ok (service n req), S n, [Http req (service n req)]).

(** ** class EnsemblAPI *)

Definition species : string := "homo_sapiens".

Definition search_genes (query : string) : M json :=
  out <- requests_get (XrefsSymbol species query) ;;
  match try_get_json out with
  | inr v => ret v
  | inl e => emit (PrintError "Error querying Ensembl: " e) ;;; ret JNull
  end.

Definition get_gene_info (gene_id : json) : M json :=
  out <- requests_get (LookupId gene_id) ;;
  match try_get_json out with
  | inr v => ret v
  | inl e => emit (PrintError "Error fetching gene info: " e) ;;; ret JNull
  end.

(** ** search_trna_synthetases *)

Definition patterns : list string :=
  [ "AARS1"; "AARS2"; "CARS1"; "CARS2"; "DARS1"; "DARS2"; "EARS2";
    "EPRS1"; "FARSA"; "FARSB"; "FARS2"; "GARS1"; "HARS1"; "HARS2";
    "IARS1"; "IARS2"; "KARS1"; "LARS1"; "LARS2"; "MARS1"; "MARS2";
    "NARS1"; "NARS2"; "PARS2"; "QARS1"; "RARS1"; "RARS2"; "SARS1";
    "SARS2"; "TARS1"; "TARS2"; "VARS1"; "VARS2"; "WARS1"; "WARS2";
    "YARS1"; "YARS2" ].

(** The body of [if gene_info:] (lines 92 to 105): the two filters and the
    append to [all_genes]. *)
Definition include_gene (pattern : string) (gene_info : json)
    (all_genes : list GeneRecord) : result (list GeneRecord) :=
  chromosome <~ py_get gene_info "seq_region_name" ;;
  display_name <~ py_get gene_info "display_name" ;;
  found <~ py_in pattern display_name ;;
  if found then
    if on_standard_chromosome chromosome then
      gene_id <~ py_get gene_info "id" ;;
      symbol <~ py_get gene_info "display_name" ;;
      description <~ py_get gene_info "description" ;;
      start <~ py_get gene_info "start" ;;
      end_ <~ py_get gene_info "end" ;;
      strand <~ py_get gene_info "strand" ;;
      biotype <~ py_get gene_info "biotype" ;;
      Ok (all_genes ++
          [mkGeneRecord gene_id symbol description chromosome
                        start end_ strand biotype])
    else Ok all_genes
  else Ok all_genes.

(** One turn of [for gene in genes] (lines 88 to 108). *)
Definition process_gene (pattern : string) (gene : json)
    (all_genes : list GeneRecord) : M (list GeneRecord) :=
  id <- lift (py_get gene "id") ;;
  gene_info <- get_gene_info id ;;
  all_genes <- (if truthy gene_info
                then lift (include_gene pattern gene_info all_genes)
                else ret all_genes) ;;
  sleep_100ms ;;;
  ret all_genes.

Fixpoint gene_loop (pattern : string) (genes : list json)
    (all_genes : list GeneRecord) : M (list GeneRecord) :=
  match genes with
  | [] => ret all_genes
  | gene :: rest =>
      all_genes <- process_gene pattern gene all_genes ;;
      gene_loop pattern rest all_genes
  end.

(** The items a [for] loop visits: the elements of a list, the keys of a
    dict, the characters of a [str]; the other values are not iterable. *)
Definition iter (v : json) : result (list json) :=
  match v with
  | JList items => Ok items
  | JObj fields => Ok (map (fun kv => JStr (fst kv)) fields)
  | JStr s => Ok (map (fun c => JStr (String c "")) (list_ascii_of_string s))
  | JNull | JBool _ | JNum _ => Raise TypeError
  end.

(** One turn of [for pattern in patterns] (lines 83 to 108). *)
Definition process_pattern (pattern : string)
    (all_genes : list GeneRecord) : M (list GeneRecord) :=
  print ("Searching for " ++ pattern ++ "...")%string ;;;
  genes <- search_genes pattern ;;
  if truthy genes then
    items <- lift (iter genes) ;;
    gene_loop pattern items all_genes
  else ret all_genes.

Fixpoint pattern_loop (ps : list string)
    (all_genes : list GeneRecord) : M (list GeneRecord) :=
  match ps with
  | [] => ret all_genes
  | pattern :: rest =>
      all_genes <- process_pattern pattern all_genes ;;
      pattern_loop rest all_genes
  end.

(** Lines 80 to 108: the list [all_genes] when the loops are over. *)
Definition collect_all_genes : M (list GeneRecord) :=
  pattern_loop patterns [].

(** *** The data frame *)

(** [df.drop_duplicates(subset=['gene_id'])] hashes the [gene_id] of every
    row and keeps the first row of each value.  Values are the same when
    Python has them equal: [True] is [1] and [False] is [0].  A list or a
    dict is not hashable and makes the call raise [TypeError]. *)
Inductive hashable : Type :=
| HNone
| HInt (n : Z)
| HStr (s : string).

Definition hash_key (v : json) : result hashable :=
  match v with
  | JNull => Ok HNone
  | JBool b => Ok (HInt (if b then 1 else 0))
  | JNum n => Ok (HInt n)
  | JStr s => Ok (HStr s)
  | JList _ | JObj _ => Raise TypeError
  end.

Definition hashable_eqb (a b : hashable) : bool :=
  match a, b with
  | HNone, HNone => true
  | HInt n, HInt m => Z.eqb n m
  | HStr s, HStr t => String.eqb s t
  | _, _ => false
  end.

Definition seen_before (k : hashable) (seen : list hashable) : bool :=
  existsb (hashable_eqb k) seen.

Fixpoint keep_first (seen : list hashable) (rows : list GeneRecord)
    : result (list GeneRecord) :=
  match rows with
  | [] => Ok []
  | r :: rest =>
      k <~ hash_key (gene_id r) ;;
      if seen_before k seen then keep_first seen rest
      else kept <~ keep_first (k :: seen) rest ;; Ok (r :: kept)
  end.

Definition drop_duplicates (df : list GeneRecord) : result (list GeneRecord) :=
  keep_first [] df.

Definition search_trna_synthetases : M (option (list GeneRecord)) :=
  all_genes <- collect_all_genes ;;
  match all_genes with
  | _ :: _ =>
      df <- lift (drop_duplicates all_genes) ;;
      ret (Some df)
  | [] => ret None
  end.

(** ** main *)

Definition newline : string := String (ascii_of_nat 10) "".

Definition output_file : string := "trna_synthetase_genes_ensembl.csv".

(** [df.head()]: the first five rows. *)
Definition df_head (df : list GeneRecord) : list GeneRecord := firstn 5 df.

Definition main : M unit :=
  print "Searching for tRNA synthetase genes in Ensembl..." ;;;
  results <- search_trna_synthetases ;;
  match results with
  | Some df =>
      print (newline ++ "Found " ++ str_of_nat (List.length df)
             ++ " tRNA synthetase genes")%string ;;;
      print (newline ++ "First few results:")%string ;;;
      emit (PrintFrame (df_head df)) ;;;
      emit (ToCsv output_file df) ;;;
      print (newline ++ "Results saved to " ++ output_file)%string
  | None => print "No results found or error occurred"
  end.

End Ensembl.

(** ** Scenarios *)

Definition no_service : nat -> request -> http_outcome :=
  fun _ _ => NoResponse "connection refused".

Definition aars1_info : json :=
  JObj [ ("id", JStr "ENSG0001"); ("display_name", JStr "AARS1");
         ("seq_region_name", JStr "16"); ("start", JNum 70318116);
         ("end", JNum 70322688); ("strand", JNum 1);
         ("biotype", JStr "protein_coding");
         ("description", JStr "alanyl-tRNA synthetase 1") ].

(** The search for "AARS1" returns [{id: "ENSG0001"}], every other search
    an empty list; the lookup of "ENSG0001" returns [info]. *)
Definition one_gene_service (info : json) : nat -> request -> http_outcome :=
  fun _ req =>
    match req with
    | XrefsSymbol _ query =>
        if String.eqb query "AARS1"
        then Response 200 (Some (JList [JObj [("id", JStr "ENSG0001")]]))
        else Response 200 (Some (JList []))
    | LookupId (JStr "ENSG0001") => Response 200 (Some info)
    | LookupId _ => Response 400 None
    end.

(** A lookup response without [display_name]. *)
Definition info_without_display_name : json :=
  JObj [ ("id", JStr "ENSG0001"); ("seq_region_name", JStr "16") ].

(** A pseudogene: its symbol contains the pattern and is not equal to it. *)
Definition aars1p1_fields : list (string * json) :=
  [ ("id", JStr "ENSG0002"); ("display_name", JStr "AARS1P1");
    ("seq_region_name", JStr "16"); ("biotype", JStr "pseudogene") ].

(** Lookups off the standard chromosomes. *)
Definition scaffold_fields : list (string * json) :=
  [ ("id", JStr "ENSG0001"); ("display_name", JStr "AARS1");
    ("seq_region_name", JStr "16_random_scaffold") ].

Definition no_region_fields : list (string * json) :=
  [ ("id", JStr "ENSG0001"); ("display_name", JStr "AARS1") ].

(** The searches for "AARS1" and for "AARS2" both return
    [{id: "ENSG0001"}]; the first lookup of the run (request 1) answers
    with the symbol "AARS1", the later one with "AARS2". *)
Definition shared_info (display_name description : string) : json :=
  JObj [ ("id", JStr "ENSG0001"); ("display_name", JStr display_name);
         ("description", JStr description);
         ("seq_region_name", JStr "16") ].

Definition shared_gene_service : nat -> request -> http_outcome :=
  fun n req =>
    match req with
    | XrefsSymbol _ query =>
        if String.eqb query "AARS1" || String.eqb query "AARS2"
        then Response 200 (Some (JList [JObj [("id", JStr "ENSG0001")]]))
        else Response 200 (Some (JList []))
    | LookupId _ =>
        if Nat.eqb n 1
        then Response 200 (Some (shared_info "AARS1" "first"))
        else Response 200 (Some (shared_info "AARS2" "second"))
    end.

(** The search for "AARS1" returns three cross-references: one without
    [id], whose lookup the service refuses, one on a scaffold and one that
    passes the filters.  The other searches fail (404) or return nothing. *)
Definition three_xref_service : nat -> request -> http_outcome :=
  fun _ req =>
    match req with
    | XrefsSymbol _ query =>
        if String.eqb query "AARS1"
        then Response 200
               (Some (JList [ JObj [("type", JStr "gene")];
                              JObj [("id", JStr "ENSG0003")];
                              JObj [("id", JStr "ENSG0001")] ]))
        else if String.eqb query "AARS2" then Response 404 None
        else Response 200 (Some (JList []))
    | LookupId (JStr "ENSG0001") => Response 200 (Some aars1_info)
    | LookupId (JStr "ENSG0003") => Response 200 (Some (JObj scaffold_fields))
    | LookupId _ => Response 400 None
    end.

(** The canonical chromosomes as the specification lists them: the 22
    autosomes, X, Y and the mitochondrial genome. *)
Definition canonical_chromosomes : list string :=
  [ "1"; "2"; "3"; "4"; "5"; "6"; "7"; "8"; "9"; "10"; "11"; "12"; "13";
    "14"; "15"; "16"; "17"; "18"; "19"; "20"; "21"; "22"; "X"; "Y"; "MT" ].

(** ** Reading the events *)

Definition is_sleep (e : event) : bool :=
  match e with Sleep100ms => true | _ => false end.

Definition is_lookup (e : event) : bool :=
  match e with Http (LookupId _) _ => true | _ => false end.

Definition is_search (e : event) : bool :=
  match e with Http (XrefsSymbol _ _) _ => true | _ => false end.

Definition is_to_csv (e : event) : bool :=
  match e with ToCsv _ _ => true | _ => false end.

Definition count (p : event -> bool) (log : list event) : nat :=
  List.length (filter p log).

(** The number of cross-references a search response carries. *)
Definition xrefs_in (out : http_outcome) : nat :=
  match try_get_json out with
  | inr (JList items) => List.length items
  | _ => 0
  end.

Definition xrefs_of_event (e : event) : nat :=
  match e with
  | Http (XrefsSymbol _ _) out => xrefs_in out
  | _ => 0
  end.

(** The cross-references returned by all the searches of a log. *)
Definition xrefs_returned (log : list event) : nat :=
  list_sum (map xrefs_of_event log).

(** One delay per search pattern: as many sleeps as searches. *)
Definition one_delay_per_pattern (log : list event) : Prop :=
  count is_sleep log = count is_search log.

(** The failures of a request: no response, or an error status. *)
Definition http_failure (out : http_outcome) : Prop :=
  match out with
  | NoResponse _ => True
  | Response status_code _ => (400 <= status_code < 600)%Z
  end.

(** A response that is not an error and whose body is the JSON [v]. *)
Definition http_success (out : http_outcome) (v : json) : Prop :=
  exists status_code,
    out = Response status_code (Some v) /\
    ~ (400 <= status_code < 600)%Z.

(** *** Responses that the run gets through *)

Definition is_dict (v : json) : bool :=
  match v with JObj _ => true | _ => false end.

Definition is_container (v : json) : bool :=
  match v with JStr _ | JList _ | JObj _ => true | _ => false end.

Definition is_hashable (v : json) : bool :=
  match hash_key v with Ok _ => true | Raise _ => false end.

Definition search_response_ok (v : json) : bool :=
  negb (truthy v) ||
  match v with
  | JList items => forallb is_dict items
  | _ => false
  end.

Definition lookup_response_ok (v : json) : bool :=
  negb (truthy v) ||
  match v with
  | JObj fields =>
      is_container (dict_get fields "display_name") &&
      is_hashable (dict_get fields "id")
  | _ => false
  end.

(** A search returns nothing or a list of dicts; a lookup returns nothing
    or a dict whose [display_name] is a string (or another container) and
    whose [id] is hashable. *)
Definition well_formed (service : nat -> request -> http_outcome) : Prop :=
  forall n req,
    match try_get_json (service n req) with
    | inl _ => True
    | inr v =>
        match req with
        | XrefsSymbol _ _ => search_response_ok v = true
        | LookupId _ => lookup_response_ok v = true
        end
    end.

(** The contract of a client method that sends [req]: it returns, after
    exactly one request; [None] and one diagnostic line on a failure, the
    parsed body and no line on a success. *)
Definition client_contract (service : nat -> request -> http_outcome)
    (call : M json) (req : request) (diagnostic : string) : Prop :=
  forall n,
    let out := service n req in
    exists v log,
      call n = (Ok v, S n, Http req out :: log) /\
      (http_failure out ->
       v = JNull /\ exists e, log = [PrintError diagnostic e]) /\
      (forall body, http_success out body -> v = body /\ log = []).

(** What [search_genes] and [get_gene_info] hand to their caller. *)
Definition json_or_null (out : http_outcome) : json :=
  match try_get_json out with
  | inr v => v
  | inl _ => JNull
  end.

(** The row built from a lookup (lines 96 to 105). *)
Definition gene_record (fields : list (string * json)) : GeneRecord :=
  mkGeneRecord (dict_get fields "id") (dict_get fields "display_name")
               (dict_get fields "description")
               (dict_get fields "seq_region_name")
               (dict_get fields "start") (dict_get fields "end")
               (dict_get fields "strand") (dict_get fields "biotype").

(** A row that passed both filters under [pattern]. *)
Definition passes (pattern : string) (r : GeneRecord) : Prop :=
  py_in pattern (symbol r) = Ok true /\
  on_standard_chromosome (chromosome r) = true.

(** The hashed [gene_id] of a row. *)
Definition key (r : GeneRecord) : result hashable := hash_key (gene_id r).

Definition has_key (k : hashable) (r : GeneRecord) : bool :=
  match key r with
  | Ok k' => hashable_eqb k k'
  | Raise _ => false
  end.

(** Rows that [drop_duplicates] can hash. *)
Definition hashable_rows (rows : list GeneRecord) : Prop :=
  Forall (fun r => exists k, key r = Ok k) rows.

(** The first row of [rows], in order, whose [gene_id] is [id]. *)
Definition first_with_gene_id (id : json) (rows : list GeneRecord)
    : option GeneRecord :=
  match hash_key id with
  | Ok k => find (has_key k) rows
  | Raise _ => None
  end.

(** What every turn of the inner loop does to the log and to [all_genes]. *)
Definition gene_turns (pattern : string) (turns : nat)
    (all_genes : list GeneRecord)
    (run : result (list GeneRecord) * nat * list event) : Prop :=
  let '(r, _, log) := run in
  count is_sleep log <= count is_lookup log /\
  count is_lookup log <= S (count is_sleep log) /\
  count is_search log = 0 /\
  count is_to_csv log = 0 /\
  xrefs_returned log = 0 /\
  forall all_genes', r = Ok all_genes' ->
    count is_sleep log = turns /\
    count is_lookup log = turns /\
    exists added,
      all_genes' = all_genes ++ added /\ Forall (passes pattern) added.

(** The events of a turn of the outer loop up to the return of
    [search_genes]. *)
Definition search_log (service : nat -> request -> http_outcome)
    (pattern : string) (n : nat) : list event :=
  let req := XrefsSymbol species pattern in
  let out := service n req in
  Print ("Searching for " ++ pattern ++ "...")%string ::
  Http req out ::
  match try_get_json out with
  | inl e => [PrintError "Error querying Ensembl: " e]
  | inr _ => []
  end.

(** What the turns of the outer loop over [ps] do. *)
Definition pattern_turns (ps : list string) (all_genes : list GeneRecord)
    (run : result (list GeneRecord) * nat * list event) : Prop :=
  let '(r, _, log) := run in
  count is_sleep log <= count is_lookup log /\
  count is_lookup log <= S (count is_sleep log) /\
  count is_search log <= List.length ps /\
  count is_to_csv log = 0 /\
  forall all_genes', r = Ok all_genes' ->
    count is_sleep log = count is_lookup log /\
    count is_sleep log = xrefs_returned log /\
    count is_search log = List.length ps /\
    exists added,
      all_genes' = all_genes ++ added /\
      Forall (fun r => exists p, In p ps /\ passes p r) added.

(** The events of [main] around the search. *)
Definition banner : event :=
  Print "Searching for tRNA synthetase genes in Ensembl...".

Definition report (df : list GeneRecord) : list event :=
  [ Print (newline ++ "Found " ++ str_of_nat (List.length df)
           ++ " tRNA synthetase genes")%string;
    Print (newline ++ "First few results:")%string;
    PrintFrame (df_head df);
    ToCsv output_file df;
    Print (newline ++ "Results saved to " ++ output_file)%string ].

(** ** Reading the requests *)

(** The requests of a log, in the order they were sent. *)
Definition requests_of (log : list event) : list request :=
  flat_map (fun e => match e with Http req _ => [req] | _ => [] end) log.

Definition is_request (e : event) : bool :=
  match e with Http _ _ => true | _ => false end.

Definition is_search_request (req : request) : bool :=
  match req with XrefsSymbol _ _ => true | LookupId _ => false end.

(** [gene.get('id')] for a cross-reference that is a dict. *)
Definition xref_id (gene : json) : json :=
  match gene with
  | JObj fields => dict_get fields "id"
  | _ => JNull
  end.

Definition lookup_of (gene : json) : request := LookupId (xref_id gene).

(** The requests of the inner loop: the lookups of the items, in order, up
    to where the loop stopped. *)
Definition lookups_sent (genes : list json)
    (run : result (list GeneRecord) * nat * list event) : Prop :=
  let '(r, _, log) := run in
  exists k,
    requests_of log = map lookup_of (firstn k genes) /\
    forall all_genes', r = Ok all_genes' -> k = List.length genes.

(** The lookups and the sleeps of a log alternate: [pending] tells that a
    lookup was sent and its sleep has not come yet.  The result is the
    state after the log, [None] when a lookup comes while one is pending
    or a sleep comes while none is. *)
Fixpoint pacing (pending : bool) (log : list event) : option bool :=
  match log with
  | [] => Some pending
  | e :: rest =>
      if is_lookup e then (if pending then None else pacing true rest)
      else if is_sleep e then (if pending then pacing false rest else None)
      else pacing pending rest
  end.

(** A row built from a dict that a lookup of the log returned. *)
Definition from_lookup (log : list event) (r : GeneRecord) : Prop :=
  exists id out fields,
    In (Http (LookupId id) out) log /\
    try_get_json out = inr (JObj fields) /\
    r = gene_record fields.

(** What a loop adds to [all_genes]: rows at the end, each from a lookup of
    the log, no more rows than lookups. *)
Definition rows_added (all_genes : list GeneRecord)
    (run : result (list GeneRecord) * nat * list event) : Prop :=
  let '(r, _, log) := run in
  forall all_genes', r = Ok all_genes' ->
    exists added,
      all_genes' = all_genes ++ added /\
      Forall (from_lookup log) added /\
      List.length added <= count is_lookup log.

(** The pacing of a computation: its lookups and sleeps alternate, and no
    lookup is pending when it ends normally. *)
Definition paced {A} (run : result A * nat * list event) : Prop :=
  let '(r, _, log) := run in
  exists pending,
    pacing false log = Some pending /\
    forall a, r = Ok a -> pending = false.

(** [kept] is [rows] with some rows left out, the others in their order. *)
Inductive subsequence {A : Type} : list A -> list A -> Prop :=
| subsequence_nil : subsequence [] []
| subsequence_keep (x : A) (kept rows : list A) :
    subsequence kept rows -> subsequence (x :: kept) (x :: rows)
| subsequence_drop (x : A) (kept rows : list A) :
    subsequence kept rows -> subsequence kept (x :: rows).

(** When a turn of the inner loop raises, from the cross-reference and from
    what its lookup returns: the cross-reference is not a dict; or the
    lookup returns something true that is not a dict, or a dict whose
    [display_name] is not a container. *)
Definition turn_raises (gene gene_info : json) : bool :=
  negb (is_dict gene) ||
  (truthy gene_info &&
   match gene_info with
   | JObj fields => negb (is_container (dict_get fields "display_name"))
   | _ => true
   end).

(** Every search is answered with status 200 and an error object, no
    list. *)
Definition error_body_service : nat -> request -> http_outcome :=
  fun _ _ => Response 200 (Some (JObj [("error", JStr "page not found")])).

(** ** class EnsemblAPI: the URLs *)

(** [str(v)], as an f-string formats [v], for the values whose text is
    modelled: [None], the booleans, the integers and the strings.  The
    text of a list or of a dict (their [repr]) is left out: [None] here. *)
Definition py_str (v : json) : option string :=
  match v with
  | JNull => Some "None"
  | JBool true => Some "True"
  | JBool false => Some "False"
  | JNum n => Some (NilZero.string_of_int (Z.to_int n))
  | JStr s => Some s
  | JList _ | JObj _ => None
  end.

Module EnsemblAPI.

Record t : Type := mk {
  base_url : string;
  species : string;
  headers : list (string * string)
}.

(** [__init__] (lines 7 to 13). *)
Definition init (species : string) : t :=
  mk "https://rest.ensembl.org" species
     [("Content-Type", "application/json"); ("Accept", "application/json")].

(** Line 25: [f"/xrefs/symbol/{self.species}/{query}?"]. *)
Definition search_endpoint (self : t) (query : string) : string :=
  ("/xrefs/symbol/" ++ species self ++ "/" ++ query ++ "?")%string.

(** Line 48: [f"/lookup/id/{gene_id}?expand=1"]. *)
Definition lookup_endpoint (gene_id : json) : option string :=
  option_map (fun id => ("/lookup/id/" ++ id ++ "?expand=1")%string)
             (py_str gene_id).

(** Lines 29 and 52: [f"{self.base_url}{endpoint}"]. *)
Definition url (self : t) (endpoint : string) : string :=
  (base_url self ++ endpoint)%string.

End EnsemblAPI.

(** The URL that [requests.get] is called with for a request. *)
Definition url_of (req : request) : option string :=
  match req with
  | XrefsSymbol species query =>
      let self := EnsemblAPI.init species in
      Some (EnsemblAPI.url self (EnsemblAPI.search_endpoint self query))
  | LookupId gene_id =>
      option_map (EnsemblAPI.url (EnsemblAPI.init species))
                 (EnsemblAPI.lookup_endpoint gene_id)
  end.

(** A request whose [try] block ends in the [except] clause, and the line
    the client prints then. *)
Definition client_gave_up (e : event) : bool :=
  match e with
  | Http _ out =>
      match try_get_json out with inl _ => true | inr _ => false end
  | _ => false
  end.

Definition is_diagnostic (e : event) : bool :=
  match e with PrintError _ _ => true | _ => false end.

(** As many diagnostic lines as requests given up. *)
Definition failures_reported (log : list event) : Prop :=
  count is_diagnostic log = count client_gave_up log.

(** A failed request, said without the code: it got no response, or a
    response with a status code from 400 to 599, or a response whose body
    is not JSON. *)
Definition is_failed_request (e : event) : bool :=
  match e with
  | Http _ (NoResponse _) => true
  | Http _ (Response status_code body) =>
      ((400 <=? status_code)%Z && (status_code <? 600)%Z) ||
      match body with None => true | Some _ => false end
  | _ => false
  end.

(** *** Containment *)

(** [pattern in v] said without the code: [pattern] is a substring of the
    string [v], an element of the list [v] or a key of the dict [v]. *)
Definition contained_in (pattern : string) (v : json) : Prop :=
  match v with
  | JStr s => exists a b, s = (a ++ pattern ++ b)%string
  | JList items => In (JStr pattern) items
  | JObj fields => In pattern (map fst fields)
  | JNull | JBool _ | JNum _ => False
  end.

(** The table as the specification has it: every [symbol] is a string with
    one of the patterns as a substring. *)
Definition symbols_are_strings_with_pattern (df : list GeneRecord) : Prop :=
  Forall (fun r => exists p s,
            In p patterns /\ symbol r = JStr s /\
            exists a b, s = (a ++ p ++ b)%string) df.

(** A lookup whose [display_name] is a list with the pattern in it. *)
Definition list_name_fields : list (string * json) :=
  [ ("id", JStr "ENSG0001"); ("display_name", JList [JStr "AARS1"]);
    ("seq_region_name", JStr "16") ].

(** *** The same gene_id *)

(** When two [gene_id] values are the same for [drop_duplicates], said
    without the code: they are equal values, where Python has [True] equal
    to [1] and [False] equal to [0]. *)
Inductive same_gene_id : json -> json -> Prop :=
| same_value (v : json) : same_gene_id v v
| same_bool_int (b : bool) :
    same_gene_id (JBool b) (JNum (if b then 1 else 0))
| same_int_bool (b : bool) :
    same_gene_id (JNum (if b then 1 else 0)) (JBool b).




(** * Properties *)

(** Splits a summary of a log into its parts and settles the counts. *)
Ltac split_turns :=
  cbn;
  repeat match goal with |- _ /\ _ => split end;
  try lia;
  try (let acc := fresh "acc" in
       let H := fresh "H" in
       intros acc H; try discriminate H;
       try (injection H as <-);
       repeat match goal with |- _ /\ _ => split end;
       try reflexivity).

(** The computation is seen to end normally with rows at hand. *)
Ltac ends_ok :=
  cbn; unfold ret; cbn;
  eexists _, _, _; split; [reflexivity|assumption].

(** The turn added no row. *)
Ltac unchanged := exists (@nil GeneRecord); rewrite app_nil_r; auto.


(** ** Substrings *)

Lemma prefix_app (p s : string) :
  prefix p s = true <-> exists b, s = (p ++ b)%string.
Proof.
  revert s. induction p as [|c p IH]; intros s; cbn.
  - split; [intros _; now exists s|now destruct s].
  - destruct s as [|d s].
    + split; [discriminate|intros [b Hb]; discriminate].
    + cbn. destruct (ascii_dec c d) as [<-|Hne].
      * rewrite IH. split; intros [b Hb]; exists b; congruence.
      * split; [discriminate|]. intros [b Hb]. congruence.
Qed.

Lemma contains_substring (p s : string) :
  contains p s = true <-> exists a b, s = (a ++ p ++ b)%string.
Proof.
  induction s as [|c s IH]; cbn [contains]; rewrite orb_true_iff.
  - rewrite prefix_app. split.
    + intros [[b Hb]|H]; [|discriminate]. now exists ""%string, b.
    + intros (a & b & H). left. exists b.
      destruct a; [assumption|discriminate].
  - rewrite prefix_app, IH. split.
    + intros [[b Hb]|(a & b & Hab)].
      * now exists ""%string, b.
      * exists (String c a), b. cbn. congruence.
    + intros (a & b & H). destruct a as [|d a].
      * left. now exists b.
      * right. exists a, b. cbn in H. congruence.
Qed.

(** ** Removing duplicates *)

Lemma hashable_eqb_eq (a b : hashable) : hashable_eqb a b = true <-> a = b.
Proof.
  destruct a, b; cbn; try (split; [discriminate|congruence]).
  - tauto.
  - rewrite Z.eqb_eq. split; congruence.
  - rewrite String.eqb_eq. split; congruence.
Qed.

Lemma seen_before_cons (k k' : hashable) (seen : list hashable) :
  seen_before k (k' :: seen) = false <-> k <> k' /\ seen_before k seen = false.
Proof.
  unfold seen_before. cbn. rewrite orb_false_iff.
  destruct (hashable_eqb k k') eqn:E.
  - apply hashable_eqb_eq in E. split; [intros [? ?]; discriminate|tauto].
  - split; [|tauto]. intros [_ ?]. split; [|assumption].
    intros ->. generalize (proj2 (hashable_eqb_eq k' k') eq_refl). congruence.
Qed.

Lemma keep_first_cons (seen : list hashable) (r : GeneRecord)
    (rest kept : list GeneRecord) :
  keep_first seen (r :: rest) = Ok kept ->
  exists k, key r = Ok k /\
    ((seen_before k seen = true /\ keep_first seen rest = Ok kept) \/
     (seen_before k seen = false /\
      exists kept', keep_first (k :: seen) rest = Ok kept' /\
                    kept = r :: kept')).
Proof.
  cbn [keep_first]. unfold key.
  destruct (hash_key (gene_id r)) as [k|e]; [|discriminate]. cbn [rbind].
  intros H. exists k. split; [reflexivity|].
  destruct (seen_before k seen).
  - left. auto.
  - right. split; [reflexivity|].
    destruct (keep_first (k :: seen) rest) as [kept'|e]; [|discriminate].
    injection H as <-. eauto.
Qed.

Lemma keep_first_In (rows : list GeneRecord) :
  forall seen kept, keep_first seen rows = Ok kept ->
  forall r, In r kept ->
    In r rows /\ exists k, key r = Ok k /\ seen_before k seen = false.
Proof.
  induction rows as [|r0 rest IH]; intros seen kept H r Hr.
  - injection H as <-. destruct Hr.
  - destruct (keep_first_cons _ _ _ _ H)
      as (k & Hk & [[Hs Hrest]|(Hs & kept' & Hrest & ->)]).
    + destruct (IH _ _ Hrest r Hr) as (? & ?). split; [now right|assumption].
    + destruct Hr as [<-|Hr].
      * split; [now left|]. eauto.
      * destruct (IH _ _ Hrest r Hr) as (? & k' & Hk' & Hs').
        split; [now right|]. exists k'. split; [assumption|].
        now apply seen_before_cons in Hs'.
Qed.

Lemma keep_first_NoDup (rows : list GeneRecord) :
  forall seen kept, keep_first seen rows = Ok kept -> NoDup (map key kept).
Proof.
  induction rows as [|r0 rest IH]; intros seen kept H.
  - injection H as <-. constructor.
  - destruct (keep_first_cons _ _ _ _ H)
      as (k & Hk & [[Hs Hrest]|(Hs & kept' & Hrest & ->)]).
    + eauto.
    + cbn. constructor; [|eauto].
      rewrite in_map_iff. intros (r & Hr & Hin).
      destruct (keep_first_In _ _ _ Hrest r Hin) as (_ & k' & Hk' & Hs').
      apply seen_before_cons in Hs'. destruct Hs' as [Hne _].
      apply Hne. congruence.
Qed.

Lemma keep_first_idempotent (rows : list GeneRecord) :
  forall seen kept, keep_first seen rows = Ok kept ->
  keep_first seen kept = Ok kept.
Proof.
  induction rows as [|r0 rest IH]; intros seen kept H.
  - injection H as <-. reflexivity.
  - destruct (keep_first_cons _ _ _ _ H)
      as (k & Hk & [[Hs Hrest]|(Hs & kept' & Hrest & ->)]).
    + eauto.
    + cbn [keep_first]. unfold key in Hk. rewrite Hk. cbn [rbind].
      rewrite Hs, (IH _ _ Hrest). reflexivity.
Qed.

Lemma keep_first_first (rows : list GeneRecord) :
  forall seen kept, keep_first seen rows = Ok kept ->
  forall r, In r rows ->
    exists k, key r = Ok k /\
      (seen_before k seen = false ->
       exists r', In r' kept /\ key r' = Ok k /\
                  find (has_key k) rows = Some r').
Proof.
  induction rows as [|r0 rest IH]; intros seen kept H r Hr; [destruct Hr|].
  destruct (keep_first_cons _ _ _ _ H)
    as (k0 & Hk0 & [[Hs0 Hrest]|(Hs0 & kept' & Hrest & ->)]).
  - destruct Hr as [<-|Hr].
    + exists k0. split; [assumption|]. congruence.
    + destruct (IH _ _ Hrest r Hr) as (k & Hk & Hfirst).
      exists k. split; [assumption|]. intros Hs.
      destruct (Hfirst Hs) as (r' & Hin & Hk' & Hfind).
      exists r'. repeat split; try assumption.
      cbn [find]. unfold has_key at 1. rewrite Hk0.
      destruct (hashable_eqb k k0) eqn:E; [|assumption].
      apply hashable_eqb_eq in E. congruence.
  - assert (Hhead : find (has_key k0) (r0 :: rest) = Some r0).
    { cbn [find]. unfold has_key. rewrite Hk0.
      now rewrite (proj2 (hashable_eqb_eq k0 k0) eq_refl). }
    destruct Hr as [<-|Hr].
    + exists k0. split; [assumption|]. intros _.
      exists r0. repeat split; [now left|assumption|assumption].
    + destruct (IH _ _ Hrest r Hr) as (k & Hk & Hfirst).
      exists k. split; [assumption|]. intros Hs.
      destruct (hashable_eqb k k0) eqn:E.
      * apply hashable_eqb_eq in E. subst k0.
        exists r0. repeat split; [now left|assumption|assumption].
      * assert (Hs' : seen_before k (k0 :: seen) = false).
        { apply seen_before_cons. split; [|assumption].
          intros ->. rewrite (proj2 (hashable_eqb_eq k0 k0) eq_refl) in E.
          discriminate. }
        destruct (Hfirst Hs') as (r' & Hin & Hk' & Hfind).
        exists r'. repeat split; [now right|assumption|].
        cbn [find]. unfold has_key at 1. rewrite Hk0, E. assumption.
Qed.

(** ** The filters *)

Lemma include_gene_eq (pattern : string) (fields : list (string * json))
    (all_genes : list GeneRecord) :
  include_gene pattern (JObj fields) all_genes =
  match py_in pattern (dict_get fields "display_name") with
  | Raise e => Raise e
  | Ok false => Ok all_genes
  | Ok true =>
      if on_standard_chromosome (dict_get fields "seq_region_name")
      then Ok (all_genes ++ [gene_record fields])
      else Ok all_genes
  end.
Proof.
  unfold include_gene; cbn.
  destruct (py_in pattern _) as [[|]|e]; reflexivity.
Qed.

Lemma include_gene_Ok (pattern : string) (gene_info : json)
    (all_genes all_genes' : list GeneRecord) :
  include_gene pattern gene_info all_genes = Ok all_genes' ->
  all_genes' = all_genes \/
  exists fields,
    gene_info = JObj fields /\
    passes pattern (gene_record fields) /\
    all_genes' = all_genes ++ [gene_record fields].
Proof.
  destruct gene_info as [| | | | |fields]; try discriminate.
  rewrite include_gene_eq.
  destruct (py_in pattern _) as [[|]|e] eqn:Hin; try discriminate.
  - destruct (on_standard_chromosome _) eqn:Hchr; intros [= <-].
    + right. exists fields. repeat split; assumption.
    + now left.
  - intros [= <-]. now left.
Qed.

Lemma count_app (p : event -> bool) (l1 l2 : list event) :
  count p (l1 ++ l2) = count p l1 + count p l2.
Proof. unfold count. now rewrite filter_app, length_app. Qed.

Lemma xrefs_returned_app (l1 l2 : list event) :
  xrefs_returned (l1 ++ l2) = xrefs_returned l1 + xrefs_returned l2.
Proof. unfold xrefs_returned. now rewrite map_app, list_sum_app. Qed.

Section Driver.

Variable service : nat -> request -> http_outcome.

(** ** The client *)

Lemma search_genes_eq (query : string) (n : nat) :
  search_genes service query n =
  let req := XrefsSymbol species query in
  let out := service n req in
  match try_get_json out with
  | inr v => (Ok v, S n, [Http req out])
  | inl e => (Ok JNull, S n,
              [Http req out; PrintError "Error querying Ensembl: " e])
  end.
Proof.
  unfold search_genes, bind, requests_get; cbn.
  destruct (try_get_json _); reflexivity.
Qed.

Lemma get_gene_info_eq (id : json) (n : nat) :
  get_gene_info service id n =
  let req := LookupId id in
  let out := service n req in
  match try_get_json out with
  | inr v => (Ok v, S n, [Http req out])
  | inl e => (Ok JNull, S n,
              [Http req out; PrintError "Error fetching gene info: " e])
  end.
Proof.
  unfold get_gene_info, bind, requests_get; cbn.
  destruct (try_get_json _); reflexivity.
Qed.

(** ** One cross-reference *)

Lemma process_gene_eq (pattern : string) (gene : json)
    (all_genes : list GeneRecord) (n : nat) :
  process_gene service pattern gene all_genes n =
  match py_get gene "id" with
  | Raise e => (Raise e, n, [])
  | Ok id =>
      let req := LookupId id in
      let out := service n req in
      match try_get_json out with
      | inl e =>
          (Ok all_genes, S n,
           [Http req out; PrintError "Error fetching gene info: " e;
            Sleep100ms])
      | inr gene_info =>
          if truthy gene_info then
            match include_gene pattern gene_info all_genes with
            | Ok all_genes' => (Ok all_genes', S n, [Http req out; Sleep100ms])
            | Raise e => (Raise e, S n, [Http req out])
            end
          else (Ok all_genes, S n, [Http req out; Sleep100ms])
      end
  end.
Proof.
  unfold process_gene. unfold bind at 1. unfold lift at 1.
  destruct (py_get gene "id") as [id|e]; [|reflexivity].
  unfold bind at 1. rewrite get_gene_info_eq. cbv zeta.
  destruct (try_get_json _) as [e|gene_info]; [reflexivity|].
  destruct (truthy gene_info); [|reflexivity].
  unfold bind, lift.
  destruct (include_gene _ _ _); reflexivity.
Qed.

Lemma process_gene_turn (pattern : string) (gene : json)
    (all_genes : list GeneRecord) (n : nat) :
  gene_turns pattern 1 all_genes (process_gene service pattern gene all_genes n).
Proof.
  rewrite process_gene_eq.
  destruct (py_get gene "id") as [id|e]; [|split_turns].
  cbv zeta.
  destruct (try_get_json _) as [e|gene_info]; [split_turns; unchanged|].
  destruct (truthy gene_info); [|split_turns; unchanged].
  destruct (include_gene _ _ _) as [all_genes'|e] eqn:Hinc; split_turns.
  destruct (include_gene_Ok _ _ _ _ Hinc) as [->|(fields & _ & Hp & ->)].
  - unchanged.
  - exists [gene_record fields]. auto.
Qed.

Lemma gene_turns_seq (pattern : string) (k1 k2 : nat)
    (acc a : list GeneRecord) (n1 n2 : nat) (l1 l2 : list event)
    (r2 : result (list GeneRecord)) :
  gene_turns pattern k1 acc (Ok a, n1, l1) ->
  gene_turns pattern k2 a (r2, n2, l2) ->
  gene_turns pattern (k1 + k2) acc (r2, n2, l1 ++ l2).
Proof.
  unfold gene_turns.
  intros (_ & _ & Hs1 & Hc1 & Hx1 & H1) (Hle & Hge & Hs2 & Hc2 & Hx2 & H2).
  destruct (H1 a eq_refl) as (E1 & E1' & added1 & -> & F1).
  rewrite !count_app, xrefs_returned_app.
  repeat match goal with |- _ /\ _ => split end; try lia.
  intros acc' ->.
  destruct (H2 acc' eq_refl) as (E2 & E2' & added2 & -> & F2).
  repeat split; try lia.
  exists (added1 ++ added2). rewrite app_assoc. split; [reflexivity|].
  apply Forall_app; auto.
Qed.

Lemma gene_loop_turns (pattern : string) (genes : list json) :
  forall (all_genes : list GeneRecord) (n : nat),
    gene_turns pattern (List.length genes) all_genes
               (gene_loop service pattern genes all_genes n).
Proof.
  induction genes as [|gene rest IH]; intros all_genes n.
  - split_turns. unchanged.
  - cbn [gene_loop List.length]. unfold bind.
    pose proof (process_gene_turn pattern gene all_genes n) as Hg.
    destruct (process_gene _ _ _ _ _) as [[[a|e] n1] l1].
    + specialize (IH a n1).
      destruct (gene_loop _ _ _ _ _) as [[r2 n2] l2].
      exact (gene_turns_seq pattern 1 _ _ _ _ _ _ _ _ Hg IH).
    + unfold gene_turns in *. destruct Hg as (? & ? & ? & ? & ? & _).
      repeat match goal with |- _ /\ _ => split end; try assumption.
      intros acc' Hacc'; discriminate Hacc'.
Qed.

(** A [str] has no [get]: a loop over the keys of a dict or the characters
    of a [str] stops at its first item. *)
Lemma gene_loop_str (pattern k : string) (rest : list json)
    (all_genes : list GeneRecord) (n : nat) :
  gene_loop service pattern (JStr k :: rest) all_genes n =
  (Raise AttributeError, n, []).
Proof. cbn [gene_loop]. unfold bind. now rewrite process_gene_eq. Qed.

(** ** One pattern *)

Lemma process_pattern_eq (pattern : string)
    (all_genes : list GeneRecord) (n : nat) :
  process_pattern service pattern all_genes n =
  let genes := json_or_null (service n (XrefsSymbol species pattern)) in
  if truthy genes then
    match iter genes with
    | Raise e => (Raise e, S n, search_log service pattern n)
    | Ok items =>
        let '(r, n', log) := gene_loop service pattern items all_genes (S n) in
        (r, n', search_log service pattern n ++ log)
    end
  else (Ok all_genes, S n, search_log service pattern n).
Proof.
  unfold process_pattern, json_or_null, search_log.
  unfold bind at 1. unfold print, emit.
  unfold bind at 1. rewrite search_genes_eq. cbv zeta.
  destruct (try_get_json _) as [e|genes]; [reflexivity|].
  destruct (truthy genes); [|reflexivity].
  unfold bind, lift.
  destruct (iter genes) as [items|e]; [|reflexivity].
  destruct (gene_loop _ _ _ _ _) as [[r n'] log]. reflexivity.
Qed.

Lemma xrefs_in_eq (out : http_outcome) :
  xrefs_in out =
  match json_or_null out with
  | JList items => List.length items
  | _ => 0
  end.
Proof. unfold xrefs_in, json_or_null. now destruct (try_get_json out). Qed.

Lemma search_log_counts (pattern : string) (n : nat) :
  count is_sleep (search_log service pattern n) = 0 /\
  count is_lookup (search_log service pattern n) = 0 /\
  count is_search (search_log service pattern n) = 1 /\
  count is_to_csv (search_log service pattern n) = 0 /\
  xrefs_returned (search_log service pattern n) =
    xrefs_in (service n (XrefsSymbol species pattern)).
Proof.
  unfold search_log, xrefs_returned. cbn.
  destruct (try_get_json _); cbn; repeat split; lia.
Qed.

Lemma process_pattern_turn (pattern : string)
    (all_genes : list GeneRecord) (n : nat) :
  pattern_turns [pattern] all_genes
                (process_pattern service pattern all_genes n).
Proof.
  rewrite process_pattern_eq. cbv zeta.
  destruct (search_log_counts pattern n) as (Hs & Hl & Hq & Hc & Hx).
  rewrite xrefs_in_eq in Hx.
  destruct (truthy _) eqn:Ht.
  2:{ unfold pattern_turns. cbn [List.length].
      repeat match goal with |- _ /\ _ => split end; try lia.
      intros acc [= <-]. repeat split; try lia.
      - rewrite Hs, Hx.
        destruct (json_or_null _) as [| | | |[|]|]; try reflexivity.
        discriminate Ht.
      - unchanged. }
  destruct (iter _) as [items|e] eqn:Hi.
  2:{ unfold pattern_turns. cbn [List.length].
      repeat match goal with |- _ /\ _ => split end; try lia.
      intros acc Hacc; discriminate Hacc. }
  pose proof (gene_loop_turns pattern items all_genes (S n)) as Hg.
  destruct (gene_loop _ _ _ _ _) as [[r n'] log] eqn:Hloop.
  unfold gene_turns in Hg. destruct Hg as (H1 & H2 & H3 & H4 & H5 & H6).
  unfold pattern_turns. cbn [List.length].
  rewrite !count_app, xrefs_returned_app.
  repeat match goal with |- _ /\ _ => split end; try lia.
  intros acc ->.
  destruct (H6 acc eq_refl) as (E1 & E2 & added & -> & F).
  repeat split; try lia.
  - rewrite Hs, Hx, H5, E1.
    destruct (json_or_null _) as [| | |s|l|fields]; try discriminate Hi.
    + injection Hi as <-.
      destruct s as [|c s]; [discriminate Ht|].
      cbn [map list_ascii_of_string] in Hloop. rewrite gene_loop_str in Hloop. discriminate Hloop.
    + injection Hi as <-. lia.
    + injection Hi as <-.
      destruct fields as [|[k v] fields]; [discriminate Ht|].
      cbn [map fst] in Hloop. rewrite gene_loop_str in Hloop. discriminate Hloop.
  - exists added. split; [reflexivity|].
    eapply Forall_impl; [|exact F].
    intros r Hr. exists pattern. split; [now left|assumption].
Qed.

Lemma pattern_loop_turns (ps : list string) :
  forall (all_genes : list GeneRecord) (n : nat),
    pattern_turns ps all_genes (pattern_loop service ps all_genes n).
Proof.
  induction ps as [|pattern rest IH]; intros all_genes n.
  - split_turns. unchanged.
  - cbn [pattern_loop]. unfold bind.
    pose proof (process_pattern_turn pattern all_genes n) as Hp.
    destruct (process_pattern _ _ _ _) as [[[a|e] n1] l1].
    + specialize (IH a n1).
      destruct (pattern_loop _ _ _ _) as [[r2 n2] l2].
      unfold pattern_turns in *. cbn [List.length] in *.
      destruct Hp as (_ & _ & _ & Hc1 & Hp).
      destruct (Hp a eq_refl) as (E1 & E2 & E3 & added1 & -> & F1).
      destruct IH as (L1 & L2 & L3 & L4 & IH).
      rewrite !count_app, xrefs_returned_app.
      repeat match goal with |- _ /\ _ => split end; try lia.
      intros acc ->.
      destruct (IH acc eq_refl) as (E4 & E5 & E6 & added2 & -> & F2).
      repeat split; try lia.
      exists (added1 ++ added2). rewrite app_assoc. split; [reflexivity|].
      apply Forall_app. split.
      * eapply Forall_impl; [|exact F1].
        intros r (p & [<-|[]] & Hr).
        exists pattern. split; [now left|assumption].
      * eapply Forall_impl; [|exact F2].
        intros r (p & Hin & Hr). exists p. split; [now right|assumption].
    + unfold pattern_turns in *. cbn [List.length] in *.
      destruct Hp as (? & ? & ? & ? & _).
      repeat match goal with |- _ /\ _ => split end; try lia.
      intros acc Hacc; discriminate Hacc.
Qed.

(** ** The whole run *)

Lemma search_trna_synthetases_eq (n : nat) :
  search_trna_synthetases service n =
  let '(r, n', log) := collect_all_genes service n in
  match r with
  | Raise e => (Raise e, n', log)
  | Ok [] => (Ok None, n', log)
  | Ok all_genes =>
      match drop_duplicates all_genes with
      | Ok df => (Ok (Some df), n', log)
      | Raise e => (Raise e, n', log)
      end
  end.
Proof.
  unfold search_trna_synthetases. unfold bind at 1.
  destruct (collect_all_genes service n) as [[[all_genes|e] n'] log];
    [|reflexivity].
  destruct all_genes as [|r rest].
  - cbn. now rewrite app_nil_r.
  - unfold bind, lift, ret.
    destruct (drop_duplicates (r :: rest)); now rewrite ?app_nil_r.
Qed.

Lemma main_eq (n : nat) :
  main service n =
  let '(r, n', log) := search_trna_synthetases service n in
  match r with
  | Raise e => (Raise e, n', banner :: log)
  | Ok None =>
      (Ok tt, n', banner :: log ++ [Print "No results found or error occurred"])
  | Ok (Some df) => (Ok tt, n', banner :: log ++ report df)
  end.
Proof.
  unfold main. unfold bind at 1. unfold print at 1, emit at 1.
  unfold bind at 1.
  destruct (search_trna_synthetases service n) as [[[[df|]|e] n'] log];
    reflexivity.
Qed.

End Driver.

(** * The claims *)

(** ** The client *)

Lemma is_error_status_spec (status_code : Z) :
  is_error_status status_code = true <-> (400 <= status_code < 600)%Z.
Proof. unfold is_error_status. rewrite andb_true_iff. lia. Qed.

Lemma try_get_json_failure (out : http_outcome) :
  http_failure out -> exists e, try_get_json out = inl e.
Proof.
  destruct out as [why|status_code body]; cbn; intros H; [eauto|].
  apply is_error_status_spec in H. rewrite H. eauto.
Qed.

Lemma try_get_json_success (out : http_outcome) (v : json) :
  http_success out v -> try_get_json out = inr v.
Proof.
  intros (status_code & -> & H). cbn.
  destruct (is_error_status status_code) eqn:E; [|reflexivity].
  now apply is_error_status_spec in E.
Qed.

(** C6.  [search_genes] and [get_gene_info] never raise to their caller,
    whatever the service does and whatever the argument is.  Each sends one
    request and returns.  When the request gets no response or a response
    with an error status (4xx or 5xx, the codes [raise_for_status] rejects),
    the method prints one diagnostic line and returns [None]; when the
    response is not an error and carries a JSON body, the method returns
    that parsed body and prints nothing. *)
Theorem client_calls_never_raise
    (service : nat -> request -> http_outcome) (query : string) (id : json) :
  client_contract service (search_genes service query)
                  (XrefsSymbol species query) "Error querying Ensembl: " /\
  client_contract service (get_gene_info service id)
                  (LookupId id) "Error fetching gene info: ".
Proof.
  split; intros n out; subst out.
  - rewrite search_genes_eq. cbv zeta.
    destruct (try_get_json _) as [e|v] eqn:E.
    + eexists JNull, _. split; [reflexivity|]. split.
      * intros _. split; [reflexivity|eauto].
      * intros body Hb. apply try_get_json_success in Hb. congruence.
    + exists v, []. split; [reflexivity|]. split.
      * intros Hf. apply try_get_json_failure in Hf as [e He]. congruence.
      * intros body Hb. apply try_get_json_success in Hb.
        split; congruence.
  - rewrite get_gene_info_eq. cbv zeta.
    destruct (try_get_json _) as [e|v] eqn:E.
    + eexists JNull, _. split; [reflexivity|]. split.
      * intros _. split; [reflexivity|eauto].
      * intros body Hb. apply try_get_json_success in Hb. congruence.
    + exists v, []. split; [reflexivity|]. split.
      * intros Hf. apply try_get_json_failure in Hf as [e He]. congruence.
      * intros body Hb. apply try_get_json_success in Hb.
        split; congruence.
Qed.

(** The contract at work: a refused connection gives [None] to the search,
    a 200 response gives its body to the lookup. *)
Lemma client_calls_never_raise_witness :
  (exists log, search_genes no_service "AARS1" 0 = (Ok JNull, 1, log)) /\
  (exists log,
     get_gene_info (one_gene_service aars1_info) (JStr "ENSG0001") 1
     = (Ok aars1_info, 2, log)).
Proof.
  split.
  - destruct (proj1 (client_calls_never_raise no_service "AARS1" JNull) 0)
      as (v & log & Hrun & Hfail & _).
    destruct (Hfail I) as [-> _]. eexists. exact Hrun.
  - destruct (proj2 (client_calls_never_raise (one_gene_service aars1_info)
                       "AARS1" (JStr "ENSG0001")) 1)
      as (v & log & Hrun & _ & Hok).
    destruct (Hok aars1_info) as [-> _].
    + exists 200%Z. split; [reflexivity|lia].
    + eexists. exact Hrun.
Defined.

(** ** A lookup without [display_name] *)

(** C1.  The code does not exclude a lookup that lacks [display_name]: when
    the lookup of a cross-reference returns a non-empty object whose
    [display_name] is missing (or null), [pattern in None] raises
    [TypeError] in the turn of the inner loop, after the request and before
    the sleep; nothing catches it. *)
Theorem missing_display_name_raises
    (service : nat -> request -> http_outcome) (pattern : string)
    (gene : json) (id : json) (fields : list (string * json))
    (all_genes : list GeneRecord) (n : nat)
    (Hid : py_get gene "id" = Ok id)
    (Hinfo : try_get_json (service n (LookupId id)) = inr (JObj fields))
    (Hfields : fields <> [])
    (Hname : dict_get fields "display_name" = JNull) :
  process_gene service pattern gene all_genes n =
  (Raise TypeError, S n, [Http (LookupId id) (service n (LookupId id))]).
Proof.
  rewrite process_gene_eq, Hid. cbv zeta. rewrite Hinfo.
  destruct fields as [|f fields]; [contradiction|]. cbn [truthy].
  rewrite include_gene_eq, Hname. reflexivity.
Qed.

(** The run of the whole search on such a lookup. *)
Lemma missing_display_name_raises_witness :
  process_gene (one_gene_service info_without_display_name) "AARS1"
               (JObj [("id", JStr "ENSG0001")]) [] 1
  = (Raise TypeError, 2,
     [Http (LookupId (JStr "ENSG0001"))
           (Response 200 (Some info_without_display_name))]) /\
  fst (fst (search_trna_synthetases
              (one_gene_service info_without_display_name) 0))
  = Raise TypeError.
Proof.
  split.
  - apply (missing_display_name_raises
             (one_gene_service info_without_display_name) "AARS1"
             (JObj [("id", JStr "ENSG0001")]) (JStr "ENSG0001")
             [("id", JStr "ENSG0001"); ("seq_region_name", JStr "16")]).
    + reflexivity.
    + reflexivity.
    + discriminate.
    + reflexivity.
  - vm_compute. reflexivity.
Defined.

(** C2.  The program does not always end normally: on a service whose
    lookup response lacks [display_name], [main] ends with an uncaught
    [TypeError] after two requests, having printed its banner and one
    progress line, and writes no file. *)
Theorem main_raises_on_missing_display_name :
  main (one_gene_service info_without_display_name) 0 =
  (Raise TypeError, 2,
   [ Print "Searching for tRNA synthetase genes in Ensembl...";
     Print "Searching for AARS1...";
     Http (XrefsSymbol "homo_sapiens" "AARS1")
          (Response 200 (Some (JList [JObj [("id", JStr "ENSG0001")]])));
     Http (LookupId (JStr "ENSG0001"))
          (Response 200 (Some info_without_display_name)) ]).
Proof. vm_compute. reflexivity. Qed.

(** *** Where the run does end normally *)

Lemma keep_first_total (rows : list GeneRecord) :
  hashable_rows rows ->
  forall seen, exists kept, keep_first seen rows = Ok kept.
Proof.
  induction 1 as [|r rest [k Hk] _ IH]; intros seen; [now exists []|].
  cbn [keep_first]. unfold key in Hk. rewrite Hk. cbn [rbind].
  destruct (seen_before k seen); [apply IH|].
  destruct (IH (k :: seen)) as [kept ->]. cbn [rbind]. eauto.
Qed.

Lemma include_gene_well_formed (pattern : string)
    (fields : list (string * json)) (all_genes : list GeneRecord) :
  is_container (dict_get fields "display_name") = true ->
  is_hashable (dict_get fields "id") = true ->
  hashable_rows all_genes ->
  exists all_genes',
    include_gene pattern (JObj fields) all_genes = Ok all_genes' /\
    hashable_rows all_genes'.
Proof.
  intros Hname Hid Hrows. rewrite include_gene_eq.
  assert (Hin : exists b, py_in pattern (dict_get fields "display_name") = Ok b).
  { destruct (dict_get fields "display_name"); try discriminate Hname;
      cbn; eauto. }
  destruct Hin as [[|] ->]; [|eauto].
  destruct (on_standard_chromosome _); [|eauto].
  eexists. split; [reflexivity|].
  apply Forall_app. split; [assumption|]. constructor; [|constructor].
  unfold key, is_hashable in *. cbn [gene_id gene_record].
  destruct (hash_key (dict_get fields "id")); [eauto|discriminate].
Qed.

Section WellFormed.

Variable service : nat -> request -> http_outcome.
Hypothesis Hwf : well_formed service.

Lemma process_gene_well_formed (pattern : string) (gene : json)
    (all_genes : list GeneRecord) (n : nat) :
  is_dict gene = true -> hashable_rows all_genes ->
  exists all_genes' n' log,
    process_gene service pattern gene all_genes n = (Ok all_genes', n', log) /\
    hashable_rows all_genes'.
Proof.
  intros Hgene Hrows. rewrite process_gene_eq.
  destruct gene as [| | | | |xref]; try discriminate Hgene.
  cbn [py_get]. cbv zeta.
  pose proof (Hwf n (LookupId (dict_get xref "id"))) as Hresp.
  destruct (try_get_json _) as [e|gene_info]; [ends_ok|].
  destruct (truthy gene_info) eqn:Ht; [|ends_ok].
  unfold lookup_response_ok in Hresp. rewrite Ht in Hresp. cbn [negb orb] in Hresp.
  destruct gene_info as [| | | | |fields]; try discriminate Hresp.
  apply andb_true_iff in Hresp as [Hname Hid].
  destruct (include_gene_well_formed pattern fields all_genes Hname Hid Hrows)
    as (all_genes' & -> & Hrows').
  eauto 6.
Qed.

Lemma gene_loop_well_formed (pattern : string) (genes : list json) :
  forallb is_dict genes = true ->
  forall all_genes n, hashable_rows all_genes ->
  exists all_genes' n' log,
    gene_loop service pattern genes all_genes n = (Ok all_genes', n', log) /\
    hashable_rows all_genes'.
Proof.
  induction genes as [|gene rest IH]; intros Hgenes all_genes n Hrows.
  - ends_ok.
  - cbn [forallb] in Hgenes. apply andb_true_iff in Hgenes as [Hgene Hrest].
    cbn [gene_loop]. unfold bind.
    destruct (process_gene_well_formed pattern gene all_genes n Hgene Hrows)
      as (a & n1 & l1 & -> & Ha).
    destruct (IH Hrest a n1 Ha) as (a' & n2 & l2 & -> & Ha').
    ends_ok.
Qed.

Lemma process_pattern_well_formed (pattern : string)
    (all_genes : list GeneRecord) (n : nat) :
  hashable_rows all_genes ->
  exists all_genes' n' log,
    process_pattern service pattern all_genes n = (Ok all_genes', n', log) /\
    hashable_rows all_genes'.
Proof.
  intros Hrows. rewrite process_pattern_eq. cbv zeta.
  pose proof (Hwf n (XrefsSymbol species pattern)) as Hresp.
  unfold json_or_null.
  destruct (try_get_json _) as [e|genes]; [ends_ok|].
  destruct (truthy genes) eqn:Ht; [|ends_ok].
  unfold search_response_ok in Hresp. rewrite Ht in Hresp.
  cbn [negb orb] in Hresp.
  destruct genes as [| | | |items|]; try discriminate Hresp. cbn [iter].
  destruct (gene_loop_well_formed pattern items Hresp all_genes (S n) Hrows)
    as (a & n1 & l1 & -> & Ha).
  eauto 6.
Qed.

Lemma pattern_loop_well_formed (ps : list string) :
  forall all_genes n, hashable_rows all_genes ->
  exists all_genes' n' log,
    pattern_loop service ps all_genes n = (Ok all_genes', n', log) /\
    hashable_rows all_genes'.
Proof.
  induction ps as [|pattern rest IH]; intros all_genes n Hrows.
  - ends_ok.
  - cbn [pattern_loop]. unfold bind.
    destruct (process_pattern_well_formed pattern all_genes n Hrows)
      as (a & n1 & l1 & -> & Ha).
    destruct (IH a n1 Ha) as (a' & n2 & l2 & -> & Ha').
    ends_ok.
Qed.

(** X12.  On a well-formed service [main] ends normally: when every
    search returns nothing or a list of dicts, and every lookup returns
    nothing or a dict whose [display_name] is a string (or another
    container) and whose [id] is hashable, no exception escapes, whatever
    the transport failures and the status codes are. *)
Lemma main_ends_normally (n : nat) :
  exists n' log, main service n = (Ok tt, n', log).
Proof.
  rewrite main_eq, search_trna_synthetases_eq. unfold collect_all_genes.
  destruct (pattern_loop_well_formed patterns [] n)
    as (all_genes & n' & log & -> & Hrows); [constructor|].
  destruct all_genes as [|r rest]; [eauto|].
  destruct (keep_first_total _ Hrows []) as [df Hdf].
  unfold drop_duplicates. rewrite Hdf. eauto.
Qed.

End WellFormed.

Example shared_gene_service_well_formed : well_formed shared_gene_service.
Proof.
  intros n [sp query|id]; cbn.
  - destruct (_ || _); reflexivity.
  - destruct (Nat.eqb n 1); reflexivity.
Qed.

(** ** A cross-reference without [id] *)

(** C9.  A cross-reference (a dict) without [id] is not skipped: its turn
    starts with the lookup request for [None].  When that lookup returns
    nothing (a failure, [null] or an empty object) the list of rows is
    unchanged; there is no guard on [id], so a lookup that did return an
    object would go through the filters like any other. *)
Theorem xref_without_id_is_looked_up
    (service : nat -> request -> http_outcome) (pattern : string)
    (fields : list (string * json)) (all_genes : list GeneRecord) (n : nat)
    (Hid : assoc "id" fields = None) :
  let out := service n (LookupId JNull) in
  exists r log,
    process_gene service pattern (JObj fields) all_genes n
    = (r, S n, Http (LookupId JNull) out :: log) /\
    (truthy (json_or_null out) = false ->
     r = Ok all_genes /\ count is_sleep log = 1) /\
    (truthy (json_or_null out) = true ->
     r = include_gene pattern (json_or_null out) all_genes).
Proof.
  intros out. rewrite process_gene_eq. cbn [py_get]. unfold dict_get.
  rewrite Hid. cbv zeta. fold out. unfold json_or_null.
  destruct (try_get_json out) as [e|gene_info].
  - eexists _, _. split; [reflexivity|]. split; [auto|discriminate].
  - destruct (truthy gene_info) eqn:Ht.
    + destruct (include_gene pattern gene_info all_genes) eqn:Hi;
        eexists _, _; (split; [reflexivity|]); split;
        intros; try discriminate; reflexivity.
    + eexists _, _. split; [reflexivity|]. split; [auto|discriminate].
Qed.

(** On [three_xref_service] the first cross-reference has no [id]; the
    service refuses the lookup of [None] and the turn adds no row. *)
Lemma xref_without_id_is_looked_up_witness :
  exists log,
    process_gene three_xref_service "AARS1" (JObj [("type", JStr "gene")])
                 [] 1
    = (Ok [], 2, Http (LookupId JNull) (Response 400 None) :: log).
Proof.
  destruct (xref_without_id_is_looked_up three_xref_service "AARS1"
              [("type", JStr "gene")] [] 1 eq_refl)
    as (r & log & Hrun & Hnull & _).
  destruct (Hnull eq_refl) as [-> _].
  exists log. exact Hrun.
Defined.

(** ** The rows of the final table *)

Lemma standard_chromosomes_eq : standard_chromosomes = canonical_chromosomes.
Proof. reflexivity. Qed.

Lemma on_standard_chromosome_spec (v : json) :
  on_standard_chromosome v = true <->
  exists c, v = JStr c /\ In c canonical_chromosomes.
Proof.
  unfold on_standard_chromosome. rewrite standard_chromosomes_eq.
  rewrite existsb_exists. split.
  - intros (c & Hin & Heq). destruct v; try discriminate Heq.
    cbn in Heq. apply String.eqb_eq in Heq. subst. eauto.
  - intros (c & -> & Hin). exists c. split; [assumption|].
    cbn. apply String.eqb_refl.
Qed.

(** The table is what [drop_duplicates] keeps of the rows collected. *)
Lemma final_table (service : nat -> request -> http_outcome)
    (n n' : nat) (df : list GeneRecord) (log : list event) :
  search_trna_synthetases service n = (Ok (Some df), n', log) ->
  exists all_genes,
    collect_all_genes service n = (Ok all_genes, n', log) /\
    drop_duplicates all_genes = Ok df.
Proof.
  rewrite search_trna_synthetases_eq.
  destruct (collect_all_genes service n) as [[[all_genes|e] m] l];
    [|discriminate].
  destruct all_genes as [|r rest]; [discriminate|].
  destruct (drop_duplicates (r :: rest)) as [kept|e] eqn:Hd; [|discriminate].
  intros [= <- <- <-]. eauto.
Qed.

(** Every row collected passed both filters under one of the patterns. *)
Lemma collected_rows_pass (service : nat -> request -> http_outcome)
    (n n' : nat) (all_genes : list GeneRecord) (log : list event) :
  collect_all_genes service n = (Ok all_genes, n', log) ->
  Forall (fun r => exists p, In p patterns /\ passes p r) all_genes.
Proof.
  unfold collect_all_genes. intros H.
  pose proof (pattern_loop_turns service patterns [] n) as Hturns.
  rewrite H in Hturns. destruct Hturns as (_ & _ & _ & _ & Hok).
  destruct (Hok all_genes eq_refl) as (_ & _ & _ & added & -> & Hall).
  exact Hall.
Qed.

Lemma final_table_rows_pass (service : nat -> request -> http_outcome)
    (n n' : nat) (df : list GeneRecord) (log : list event) :
  search_trna_synthetases service n = (Ok (Some df), n', log) ->
  Forall (fun r => exists p, In p patterns /\ passes p r) df.
Proof.
  intros H. destruct (final_table _ _ _ _ _ H) as (all_genes & Hc & Hd).
  pose proof (collected_rows_pass _ _ _ _ _ Hc) as Hall.
  rewrite Forall_forall in *. intros r Hr. apply Hall.
  now destruct (keep_first_In _ _ _ Hd r Hr).
Qed.

(** C3.  Every row of the final table has as [chromosome] one of the 25
    strings "1" to "22", "X", "Y", "MT".  The chromosome filter fails
    closed: a lookup whose [seq_region_name] is none of these strings
    (missing, not a string, or a name such as "16_random_scaffold") never
    adds a row; the turn leaves the list as it was, unless the test on
    [display_name], which comes first, raises. *)
Theorem final_table_chromosomes_canonical :
  (forall service n df n' log,
     search_trna_synthetases service n = (Ok (Some df), n', log) ->
     Forall (fun r => exists c,
               chromosome r = JStr c /\ In c canonical_chromosomes) df) /\
  (forall pattern fields all_genes,
     (forall c, dict_get fields "seq_region_name" = JStr c ->
                ~ In c canonical_chromosomes) ->
     include_gene pattern (JObj fields) all_genes =
     match py_in pattern (dict_get fields "display_name") with
     | Ok _ => Ok all_genes
     | Raise e => Raise e
     end).
Proof.
  split.
  - intros service n df n' log H.
    eapply Forall_impl; [|exact (final_table_rows_pass _ _ _ _ _ H)].
    intros r (p & _ & _ & Hchr). now apply on_standard_chromosome_spec.
  - intros pattern fields all_genes Hout. rewrite include_gene_eq.
    destruct (py_in pattern _) as [[|]|e]; try reflexivity.
    destruct (on_standard_chromosome _) eqn:Hchr; [|reflexivity].
    apply on_standard_chromosome_spec in Hchr as (c & Hc & Hin).
    destruct (Hout c Hc Hin).
Qed.

(** The table of the scenario of the specification has chromosome "16";
    the lookups on a scaffold and without [seq_region_name] add no row. *)
Lemma final_table_chromosomes_canonical_witness :
  (exists df,
     fst (fst (search_trna_synthetases (one_gene_service aars1_info) 0))
     = Ok (Some df) /\
     Forall (fun r => exists c,
               chromosome r = JStr c /\ In c canonical_chromosomes) df) /\
  include_gene "AARS1" (JObj scaffold_fields) [] = Ok [] /\
  include_gene "AARS1" (JObj no_region_fields) [] = Ok [].
Proof.
  destruct final_table_chromosomes_canonical as [Htable Hclosed].
  split; [|split].
  - destruct (search_trna_synthetases (one_gene_service aars1_info) 0)
      as [[r n'] log] eqn:Hrun.
    assert (Hr : r = Ok (Some [gene_record
               [ ("id", JStr "ENSG0001"); ("display_name", JStr "AARS1");
                 ("seq_region_name", JStr "16"); ("start", JNum 70318116);
                 ("end", JNum 70322688); ("strand", JNum 1);
                 ("biotype", JStr "protein_coding");
                 ("description", JStr "alanyl-tRNA synthetase 1") ]])).
    { apply (f_equal (fun x => fst (fst x))) in Hrun.
      vm_compute in Hrun. rewrite <- Hrun. reflexivity. }
    subst r. eexists. split; [reflexivity|].
    exact (Htable _ _ _ _ _ Hrun).
  - rewrite (Hclosed "AARS1" scaffold_fields []); [reflexivity|].
    intros c [= <-]. cbn. intuition discriminate.
  - rewrite (Hclosed "AARS1" no_region_fields []); [reflexivity|].
    intros c Hc. discriminate Hc.
Defined.

Lemma py_in_contained (pattern : string) (v : json) :
  py_in pattern v = Ok true <-> contained_in pattern v.
Proof.
  destruct v as [| | |s|items|fields]; cbn [py_in contained_in];
    try (split; [discriminate|contradiction]).
  - rewrite <- contains_substring. split; [intros [= H]|intros ->]; auto.
  - split.
    + intros [= H]. apply existsb_exists in H as (x & Hin & Heq).
      destruct x; try discriminate Heq. cbn in Heq.
      apply String.eqb_eq in Heq. now subst.
    + intros H. f_equal. apply existsb_exists. exists (JStr pattern).
      split; [assumption|]. cbn. apply String.eqb_refl.
  - split.
    + intros [= H]. apply existsb_exists in H as ([k x] & Hin & Heq).
      cbn in Heq. apply String.eqb_eq in Heq. subst.
      apply in_map_iff. now exists (k, x).
    + intros H. f_equal. apply in_map_iff in H as ([k x] & Hk & Hin).
      cbn in Hk. subst. apply existsb_exists. exists (pattern, x).
      split; [assumption|]. cbn. apply String.eqb_refl.
Qed.

(** C4, as the specification has it, fails: a lookup on chromosome 16
    whose [display_name] is the list ["AARS1"] passes the test of line 94
    (the pattern is an element of the list) and its row is in the final
    table, with a [symbol] that is no string. *)
Lemma symbols_are_strings_counterexample :
  fst (fst (search_trna_synthetases
              (one_gene_service (JObj list_name_fields)) 0))
  = Ok (Some [gene_record list_name_fields]) /\
  ~ symbols_are_strings_with_pattern [gene_record list_name_fields].
Proof.
  split; [vm_compute; reflexivity|].
  intros H. inversion H as [|r rest (p & s & _ & Hs & _) _]; subst.
  discriminate Hs.
Qed.

(** C4, amended.  Every row of the final table has a search pattern
    contained in its [symbol] in the sense of Python's [in], and the rows
    added in the turn of a pattern contain that pattern: as a substring
    when the [symbol] is a string (what the service documents), as an
    element when it is a list, as a key when it is a dict.  The filter is
    containment, not equality: a lookup on a standard chromosome whose
    [display_name] is any string around the pattern is added. *)
Theorem final_table_symbols_contain_pattern :
  (forall service n df n' log,
     search_trna_synthetases service n = (Ok (Some df), n', log) ->
     Forall (fun r => exists p,
               In p patterns /\ contained_in p (symbol r)) df) /\
  (forall service pattern all_genes n all_genes' n' log,
     process_pattern service pattern all_genes n = (Ok all_genes', n', log) ->
     exists added,
       all_genes' = all_genes ++ added /\
       Forall (fun r => contained_in pattern (symbol r)) added) /\
  (forall pattern fields all_genes a b c,
     dict_get fields "display_name" = JStr (a ++ pattern ++ b)%string ->
     dict_get fields "seq_region_name" = JStr c ->
     In c canonical_chromosomes ->
     include_gene pattern (JObj fields) all_genes
     = Ok (all_genes ++ [gene_record fields])).
Proof.
  split; [|split].
  - intros service n df n' log H.
    eapply Forall_impl; [|exact (final_table_rows_pass _ _ _ _ _ H)].
    intros r (p & Hp & Hin & _). exists p. split; [assumption|].
    now apply py_in_contained.
  - intros service pattern all_genes n all_genes' n' log H.
    pose proof (process_pattern_turn service pattern all_genes n) as Hturn.
    rewrite H in Hturn. destruct Hturn as (_ & _ & _ & _ & Hturn).
    destruct (Hturn all_genes' eq_refl) as (_ & _ & _ & added & -> & Hall).
    exists added. split; [reflexivity|].
    eapply Forall_impl; [|exact Hall].
    intros r (p & [<-|[]] & Hin & _). now apply py_in_contained.
  - intros pattern fields all_genes a b c Hname Hregion Hc.
    assert (Hchr : on_standard_chromosome
                     (dict_get fields "seq_region_name") = true)
      by (apply on_standard_chromosome_spec; eauto).
    rewrite include_gene_eq, Hname, Hchr. cbn [py_in].
    now rewrite (proj2 (contains_substring pattern _)) by eauto.
Qed.

(** The pseudogene "AARS1P1" is added under the pattern "AARS1", and the
    table of that run has this one row, whose symbol has "AARS1" as a
    substring. *)
Lemma final_table_symbols_contain_pattern_witness :
  include_gene "AARS1" (JObj aars1p1_fields) []
  = Ok [gene_record aars1p1_fields] /\
  (exists df,
     fst (fst (search_trna_synthetases
                 (one_gene_service (JObj aars1p1_fields)) 0))
     = Ok (Some df) /\
     Forall (fun r => exists p,
               In p patterns /\ contained_in p (symbol r)) df).
Proof.
  destruct final_table_symbols_contain_pattern as (Htable & _ & Hsub).
  split.
  - apply (Hsub "AARS1" aars1p1_fields [] ""%string "P1"%string
                "16"%string).
    + reflexivity.
    + reflexivity.
    + cbn. tauto.
  - destruct (search_trna_synthetases
                (one_gene_service (JObj aars1p1_fields)) 0)
      as [[r n'] log] eqn:Hrun.
    assert (Hr : r = Ok (Some [gene_record aars1p1_fields])).
    { apply (f_equal (fun x => fst (fst x))) in Hrun.
      vm_compute in Hrun. rewrite <- Hrun. reflexivity. }
    subst r. eexists. split; [reflexivity|].
    exact (Htable _ _ _ _ _ Hrun).
Defined.

(** ** Duplicates *)

Lemma NoDup_map_same {A B} (f : A -> B) (l : list A) (a b : A) :
  NoDup (map f l) -> In a l -> In b l -> f a = f b -> a = b.
Proof.
  induction l as [|x l IH]; cbn; intros Hnd Ha Hb Hf; [destruct Ha|].
  inversion Hnd as [|? ? Hx Hl]; subst.
  destruct Ha as [->|Ha], Hb as [->|Hb]; auto.
  - destruct Hx. rewrite Hf. now apply in_map.
  - destruct Hx. rewrite <- Hf. now apply in_map.
Qed.

Lemma NoDup_map_compose {A B C} (f : A -> B) (g : B -> C) (l : list A) :
  NoDup (map (fun x => g (f x)) l) -> NoDup (map f l).
Proof.
  rewrite <- (map_map f g). apply NoDup_map_inv.
Qed.

(** What [drop_duplicates] returns when it returns. *)
Lemma drop_duplicates_spec (all_genes df : list GeneRecord) :
  drop_duplicates all_genes = Ok df ->
  NoDup (map key df) /\
  (forall r, In r df -> first_with_gene_id (gene_id r) all_genes = Some r) /\
  (forall r, In r all_genes -> exists r', In r' df /\ key r' = key r) /\
  drop_duplicates df = Ok df.
Proof.
  unfold drop_duplicates. intros H.
  pose proof (keep_first_NoDup _ _ _ H) as Hnd.
  split; [assumption|]. split; [|split].
  - intros r Hr.
    destruct (keep_first_In _ _ _ H r Hr) as (Hin & k & Hk & _).
    destruct (keep_first_first _ _ _ H r Hin) as (k' & Hk' & Hfirst).
    assert (k' = k) by congruence. subst k'.
    destruct (Hfirst eq_refl) as (r' & Hr' & Hkr' & Hfind).
    unfold first_with_gene_id. unfold key in Hk. rewrite Hk, Hfind.
    f_equal. apply (NoDup_map_same key df); try assumption.
    unfold key in *. congruence.
  - intros r Hr.
    destruct (keep_first_first _ _ _ H r Hr) as (k & Hk & Hfirst).
    destruct (Hfirst eq_refl) as (r' & Hr' & Hkr' & _).
    exists r'. split; [assumption|congruence].
  - exact (keep_first_idempotent _ _ _ H).
Qed.

Lemma keep_first_hashable (rows : list GeneRecord) :
  forall seen kept, keep_first seen rows = Ok kept -> hashable_rows rows.
Proof.
  induction rows as [|r rest IH]; intros seen kept H; [constructor|].
  destruct (keep_first_cons _ _ _ _ H)
    as (k & Hk & [[_ Hrest]|(_ & kept' & Hrest & _)]);
    (constructor; [eauto|eapply IH; eassumption]).
Qed.



(** Two values have the same hash key exactly when they are the same
    [gene_id]. *)
Lemma hash_key_same (a b : json) (ka kb : hashable) :
  hash_key a = Ok ka -> hash_key b = Ok kb ->
  (ka = kb <-> same_gene_id a b).
Proof.
  intros Ha Hb. split.
  - intros <-.
    destruct a as [|x|n|s| |]; try discriminate Ha;
      destruct b as [|y|m|t| |]; try discriminate Hb;
      cbn in Ha, Hb; injection Ha as <-; try discriminate Hb.
    + constructor.
    + injection Hb as Hb.
      destruct x, y; try discriminate Hb; constructor.
    + injection Hb as ->. apply same_bool_int.
    + injection Hb as Hb. subst n. apply same_int_bool.
    + injection Hb as ->. constructor.
    + injection Hb as ->. constructor.
  - intros Hsame. inversion Hsame; subst.
    + congruence.
    + cbn in Ha, Hb. congruence.
    + cbn in Ha, Hb. congruence.
Qed.

Lemma find_split {A} (f : A -> bool) (l : list A) (x : A) :
  find f l = Some x ->
  exists pre post,
    l = pre ++ x :: post /\ Forall (fun y => f y = false) pre /\ f x = true.
Proof.
  induction l as [|y l IH]; [discriminate|].
  cbn [find]. destruct (f y) eqn:Hy.
  - intros [= ->]. exists [], l. repeat split; [constructor|assumption].
  - intros H. destruct (IH H) as (pre & post & -> & Hpre & Hx).
    exists (y :: pre), post. repeat split; [constructor|]; assumption.
Qed.

(** C5.  The final table has no two rows with the same [gene_id] (equal
    values, [True] and [1] counting as equal): each row of the table is
    the first of the collected rows, in the order of the traversal, with
    its [gene_id], so that no collected row before it has the same one;
    every collected row has a row of the table with the same [gene_id];
    and removing the duplicates of the table once more returns the
    table. *)
Theorem final_table_gene_ids_unique
    (service : nat -> request -> http_outcome)
    (n n' : nat) (df : list GeneRecord) (log : list event)
    (Hrun : search_trna_synthetases service n = (Ok (Some df), n', log)) :
  exists all_genes,
    collect_all_genes service n = (Ok all_genes, n', log) /\
    (forall i j r1 r2,
       nth_error df i = Some r1 -> nth_error df j = Some r2 ->
       same_gene_id (gene_id r1) (gene_id r2) -> i = j) /\
    NoDup (map gene_id df) /\
    (forall r, In r df ->
       exists before after,
         all_genes = before ++ r :: after /\
         Forall (fun x => ~ same_gene_id (gene_id x) (gene_id r)) before) /\
    (forall r, In r all_genes ->
       exists r', In r' df /\ same_gene_id (gene_id r') (gene_id r)) /\
    drop_duplicates df = Ok df.
Proof.
  destruct (final_table _ _ _ _ _ Hrun) as (all_genes & Hc & Hd).
  destruct (drop_duplicates_spec _ _ Hd) as (Hnd & Hfirst & Hall & Hidem).
  pose proof (keep_first_hashable _ _ _ Hd) as Hhash.
  unfold hashable_rows in Hhash. rewrite Forall_forall in Hhash.
  assert (Hkeys : forall r, In r df -> exists k, key r = Ok k).
  { intros r Hr. destruct (keep_first_In _ _ _ Hd r Hr) as (_ & k & Hk & _).
    eauto. }
  exists all_genes. split; [assumption|]. repeat split.
  - intros i j r1 r2 Hi Hj Hsame.
    destruct (Hkeys r1 (nth_error_In _ _ Hi)) as [k1 Hk1].
    destruct (Hkeys r2 (nth_error_In _ _ Hj)) as [k2 Hk2].
    assert (k1 = k2) by (apply (hash_key_same _ _ _ _ Hk1 Hk2); exact Hsame).
    subst k2.
    apply (proj1 (NoDup_nth_error (map key df)) Hnd).
    + rewrite length_map. apply nth_error_Some. congruence.
    + rewrite !nth_error_map, Hi, Hj. cbn. congruence.
  - exact (NoDup_map_compose gene_id hash_key df Hnd).
  - intros r Hr. specialize (Hfirst r Hr).
    destruct (Hkeys r Hr) as [k Hk].
    unfold first_with_gene_id in Hfirst. unfold key in Hk.
    rewrite Hk in Hfirst.
    destruct (find_split _ _ _ Hfirst) as (before & after & -> & Hpre & _).
    exists before, after. split; [reflexivity|].
    rewrite Forall_forall in *. intros x Hx Hsame.
    assert (Hxin : In x (before ++ r :: after))
      by (apply in_or_app; now left).
    destruct (Hhash x Hxin) as [kx Hkx].
    assert (kx = k) by (apply (hash_key_same _ _ _ _ Hkx Hk); exact Hsame).
    subst kx. specialize (Hpre x Hx). unfold has_key in Hpre.
    rewrite Hkx in Hpre.
    now rewrite (proj2 (hashable_eqb_eq k k) eq_refl) in Hpre.
  - intros r Hr. destruct (Hall r Hr) as (r' & Hr' & Hkey).
    exists r'. split; [assumption|].
    destruct (Hhash r Hr) as [k Hk].
    apply (hash_key_same _ _ k k); unfold key in *; congruence.
  - assumption.
Qed.

(** Two patterns resolve to "ENSG0001": two rows are collected and the
    table has the one row of the first lookup, with the symbol and the
    description seen first. *)
Lemma final_table_gene_ids_unique_witness :
  exists df,
    fst (fst (search_trna_synthetases shared_gene_service 0)) = Ok (Some df) /\
    map symbol df = [JStr "AARS1"] /\
    map description df = [JStr "first"] /\
    NoDup (map gene_id df) /\
    drop_duplicates df = Ok df.
Proof.
  destruct (search_trna_synthetases shared_gene_service 0)
    as [[r n'] log] eqn:Hrun.
  assert (Hr : r = Ok (Some [gene_record
             [ ("id", JStr "ENSG0001"); ("display_name", JStr "AARS1");
               ("description", JStr "first");
               ("seq_region_name", JStr "16") ]])).
  { apply (f_equal (fun x => fst (fst x))) in Hrun.
    vm_compute in Hrun. rewrite <- Hrun. reflexivity. }
  subst r.
  destruct (final_table_gene_ids_unique _ _ _ _ _ Hrun)
    as (all_genes & _ & _ & Hnd & _ & _ & Hidem).
  eexists. split; [reflexivity|].
  repeat split; try reflexivity; assumption.
Defined.

(** ** The events of a run *)

(** The log of [main] is the banner, the log of the loops and a tail
    without request or sleep; [main] ends normally only if the loops do. *)
Lemma main_log (service : nat -> request -> http_outcome)
    (n n' : nat) (r : result unit) (log : list event) :
  main service n = (r, n', log) ->
  exists r0 log0 tail,
    collect_all_genes service n = (r0, n', log0) /\
    log = banner :: log0 ++ tail /\
    count is_sleep tail = 0 /\ count is_lookup tail = 0 /\
    count is_search tail = 0 /\ xrefs_returned tail = 0 /\
    (r = Ok tt -> exists all_genes, r0 = Ok all_genes).
Proof.
  rewrite main_eq, search_trna_synthetases_eq.
  destruct (collect_all_genes service n) as [[[all_genes|e] m] l].
  - destruct all_genes as [|g rest].
    + intros [= <- <- <-]. eexists _, _, _. split; [reflexivity|].
      split; [reflexivity|]. repeat split. eauto.
    + destruct (drop_duplicates (g :: rest)) as [df|e].
      * intros [= <- <- <-]. eexists _, _, _. split; [reflexivity|].
        split; [reflexivity|]. repeat split. eauto.
      * intros [= <- <- <-]. exists (Ok (g :: rest)), l, [].
        rewrite app_nil_r. repeat split. eauto.
  - intros [= <- <- <-]. exists (Raise e), l, [].
    rewrite app_nil_r. repeat split. discriminate.
Qed.

(** A search that returns nothing ends the turn of its pattern. *)
Lemma process_pattern_nothing (service : nat -> request -> http_outcome)
    (pattern : string) (all_genes : list GeneRecord) (n : nat) :
  truthy (json_or_null (service n (XrefsSymbol species pattern))) = false ->
  process_pattern service pattern all_genes n
  = (Ok all_genes, S n, search_log service pattern n).
Proof. intros H. rewrite process_pattern_eq. cbv zeta. now rewrite H. Qed.

Lemma pattern_loop_nothing (service : nat -> request -> http_outcome)
    (ps : list string) :
  (forall n query,
     truthy (json_or_null (service n (XrefsSymbol species query))) = false) ->
  forall all_genes n, exists log,
    pattern_loop service ps all_genes n
    = (Ok all_genes, List.length ps + n, log).
Proof.
  intros Hnull. induction ps as [|pattern rest IH]; intros all_genes n.
  - exists []. reflexivity.
  - cbn [pattern_loop]. unfold bind.
    rewrite process_pattern_nothing by apply Hnull.
    destruct (IH all_genes (S n)) as [log Hlog]. rewrite Hlog.
    replace (List.length rest + S n) with (List.length (pattern :: rest) + n)
      by (cbn [List.length]; lia).
    eexists. reflexivity.
Qed.

(** C7.  When the list of rows is empty at the end of the loops, [main]
    writes no CSV file and its last line is the message that nothing was
    found, in place of the table.  This is the case in particular when the
    search of every pattern returns [None] (or anything empty). *)
Theorem no_results_no_file :
  (forall service n n' log,
     collect_all_genes service n = (Ok [], n', log) ->
     main service n
     = (Ok tt, n',
        banner :: log ++ [Print "No results found or error occurred"]) /\
     count is_to_csv
       (banner :: log ++ [Print "No results found or error occurred"]) = 0) /\
  (forall service,
     (forall n query,
        truthy (json_or_null (service n (XrefsSymbol species query)))
        = false) ->
     exists log, collect_all_genes service 0 = (Ok [], 37, log)).
Proof.
  split.
  - intros service n n' log H. split.
    + now rewrite main_eq, search_trna_synthetases_eq, H.
    + pose proof (pattern_loop_turns service patterns [] n) as Hturns.
      unfold collect_all_genes in H. rewrite H in Hturns.
      destruct Hturns as (_ & _ & _ & Hcsv & _).
      change (banner :: log ++ ?t) with ([banner] ++ log ++ t).
      rewrite !count_app, Hcsv. reflexivity.
  - intros service Hnull.
    destruct (pattern_loop_nothing service patterns Hnull [] 0) as [log H].
    exists log. exact H.
Qed.

(** Without a service every search returns [None]: no file, and the last
    line of the run is the message. *)
Lemma no_results_no_file_witness :
  exists log,
    main no_service 0
    = (Ok tt, 37,
       banner :: log ++ [Print "No results found or error occurred"]) /\
    count is_to_csv
       (banner :: log ++ [Print "No results found or error occurred"]) = 0.
Proof.
  destruct no_results_no_file as [Hempty Hnull].
  destruct (Hnull no_service) as [log Hlog]; [reflexivity|].
  exists log. exact (Hempty no_service 0 37 log Hlog).
Defined.

(** ** The delays *)

(** C8, as the specification has it, fails: on [three_xref_service] the run
    makes its 37 searches and sleeps three times, once after each of the
    three lookups of the first pattern. *)
Lemma one_delay_per_pattern_counterexample :
  fst (fst (main three_xref_service 0)) = Ok tt /\
  count is_search (snd (main three_xref_service 0)) = 37 /\
  count is_sleep (snd (main three_xref_service 0)) = 3 /\
  ~ one_delay_per_pattern (snd (main three_xref_service 0)).
Proof.
  unfold one_delay_per_pattern.
  repeat split; try (vm_compute; reflexivity).
  vm_compute. discriminate.
Qed.

(** C8, amended.  The delay is per cross-reference, not per pattern: a turn
    of the inner loop that ends normally starts with its lookup request and
    ends with its one sleep, so that a run that ends normally has as many
    sleeps as lookup requests; in any run the sleeps are never more than
    the lookups and at most one behind. *)
Theorem one_delay_per_lookup :
  (forall service n n' log,
     main service n = (Ok tt, n', log) ->
     count is_sleep log = count is_lookup log) /\
  (forall service n,
     let log := snd (main service n) in
     count is_sleep log <= count is_lookup log <= S (count is_sleep log)) /\
  (forall service pattern gene all_genes n all_genes' n' log,
     process_gene service pattern gene all_genes n = (Ok all_genes', n', log) ->
     exists id mid,
       log = Http (LookupId id) (service n (LookupId id))
             :: mid ++ [Sleep100ms] /\
       count is_sleep mid = 0 /\ count is_lookup mid = 0).
Proof.
  split; [|split].
  - intros service n n' log H.
    destruct (main_log _ _ _ _ _ H)
      as (r0 & log0 & tail & Hc & -> & Hs & Hl & _ & _ & Hok).
    destruct (Hok eq_refl) as [all_genes ->].
    pose proof (pattern_loop_turns service patterns [] n) as Hturns.
    unfold collect_all_genes in Hc. rewrite Hc in Hturns.
    destruct Hturns as (_ & _ & _ & _ & Hturns).
    destruct (Hturns all_genes eq_refl) as (E & _).
    change (banner :: log0 ++ tail) with ([banner] ++ log0 ++ tail).
    rewrite !count_app, Hs, Hl, E. reflexivity.
  - intros service n.
    destruct (main service n) as [[r n'] log] eqn:H. cbn [snd].
    destruct (main_log _ _ _ _ _ H)
      as (r0 & log0 & tail & Hc & -> & Hs & Hl & _).
    pose proof (pattern_loop_turns service patterns [] n) as Hturns.
    unfold collect_all_genes in Hc. rewrite Hc in Hturns.
    destruct Hturns as (H1 & H2 & _).
    change (banner :: log0 ++ tail) with ([banner] ++ log0 ++ tail).
    rewrite !count_app, Hs, Hl. cbn. lia.
  - intros service pattern gene all_genes n all_genes' n' log.
    rewrite process_gene_eq.
    destruct (py_get gene "id") as [id|e]; [|discriminate]. cbv zeta.
    destruct (try_get_json _) as [e|gene_info].
    + intros [= <- <- <-]. eexists id, [_]. repeat split.
    + destruct (truthy gene_info).
      * destruct (include_gene _ _ _); [|discriminate].
        intros [= <- <- <-]. exists id, []. repeat split.
      * intros [= <- <- <-]. exists id, []. repeat split.
Qed.

(** On [three_xref_service]: three lookups, three sleeps; the turn of the
    cross-reference without [id] ends with its sleep. *)
Lemma one_delay_per_lookup_witness :
  count is_sleep (snd (main three_xref_service 0)) = 3 /\
  count is_lookup (snd (main three_xref_service 0)) = 3 /\
  exists id mid,
    snd (process_gene three_xref_service "AARS1"
           (JObj [("type", JStr "gene")]) [] 1)
    = Http (LookupId id) (three_xref_service 1 (LookupId id))
      :: mid ++ [Sleep100ms].
Proof.
  destruct one_delay_per_lookup as (Hrun & _ & Hturn).
  assert (Hr : fst (fst (main three_xref_service 0)) = Ok tt)
    by (vm_compute; reflexivity).
  assert (Hl : count is_lookup (snd (main three_xref_service 0)) = 3)
    by (vm_compute; reflexivity).
  destruct (main three_xref_service 0) as [[r n'] log] eqn:Hmain.
  cbn [fst snd] in *. subst r.
  pose proof (Hrun _ _ _ _ Hmain) as Heq.
  split; [congruence|]. split; [assumption|].
  destruct (process_gene three_xref_service "AARS1"
              (JObj [("type", JStr "gene")]) [] 1)
    as [[r1 n1] log1] eqn:Hgene.
  assert (Hr1 : r1 = Ok []).
  { apply (f_equal (fun x => fst (fst x))) in Hgene.
    vm_compute in Hgene. congruence. }
  subst r1. cbn [snd].
  destruct (Hturn _ _ _ _ _ _ _ _ Hgene) as (id & mid & Hlog & _).
  eauto.
Defined.

Section SleepsAtMost.

Variable service : nat -> request -> http_outcome.





End SleepsAtMost.




(** * More of the code *)

(** ** The requests of a run *)

Lemma requests_of_app (l1 l2 : list event) :
  requests_of (l1 ++ l2) = requests_of l1 ++ requests_of l2.
Proof. apply flat_map_app. Qed.

Lemma count_requests (log : list event) :
  count is_request log = count is_search log + count is_lookup log.
Proof.
  unfold count. induction log as [|e log IH]; [reflexivity|].
  destruct e as [[sp q|id] out| | | | |]; cbn; lia.
Qed.

Lemma search_log_requests (service : nat -> request -> http_outcome)
    (pattern : string) (n : nat) :
  requests_of (search_log service pattern n) = [XrefsSymbol species pattern].
Proof. unfold search_log. cbn. now destruct (try_get_json _). Qed.

Section Requests.

Variable service : nat -> request -> http_outcome.

Lemma process_gene_requests (pattern : string) (gene : json)
    (all_genes : list GeneRecord) (n : nat) :
  lookups_sent [gene] (process_gene service pattern gene all_genes n).
Proof.
  rewrite process_gene_eq.
  destruct gene as [| | | | |fields]; cbn [py_get];
    try (exists 0; split; [reflexivity|intros a Ha; discriminate Ha]).
  cbv zeta. destruct (try_get_json _) as [e|gene_info].
  { exists 1. split; reflexivity. }
  destruct (truthy gene_info).
  - destruct (include_gene _ _ _); exists 1; split; reflexivity.
  - exists 1. split; reflexivity.
Qed.

Lemma gene_loop_requests (pattern : string) (genes : list json) :
  forall all_genes n,
    lookups_sent genes (gene_loop service pattern genes all_genes n).
Proof.
  induction genes as [|gene rest IH]; intros all_genes n.
  - exists 0. split; reflexivity.
  - cbn [gene_loop]. unfold bind.
    pose proof (process_gene_requests pattern gene all_genes n) as Hg.
    destruct (process_gene _ _ _ _ _) as [[[a|e] n1] l1].
    + destruct Hg as (k1 & Hreq1 & Hk1). specialize (Hk1 a eq_refl).
      subst k1. cbn in Hreq1.
      specialize (IH a n1).
      destruct (gene_loop _ _ _ _ _) as [[r2 n2] l2].
      destruct IH as (k & Hreq & Hk).
      exists (S k). split.
      * rewrite requests_of_app, Hreq1, Hreq. reflexivity.
      * intros a' Ha'. cbn [List.length]. f_equal. eauto.
    + destruct Hg as (k1 & Hreq1 & _).
      exists (Nat.min k1 1). split.
      * rewrite Hreq1. destruct k1 as [|[|k1]]; reflexivity.
      * intros a Ha; discriminate Ha.
Qed.

Lemma process_pattern_requests (pattern : string)
    (all_genes : list GeneRecord) (n : nat) :
  exists ids,
    requests_of (snd (process_pattern service pattern all_genes n))
    = XrefsSymbol species pattern :: map LookupId ids.
Proof.
  rewrite process_pattern_eq. cbv zeta.
  destruct (truthy _).
  2:{ exists []. cbn [snd]. apply search_log_requests. }
  destruct (iter _) as [items|e].
  2:{ exists []. cbn [snd]. apply search_log_requests. }
  pose proof (gene_loop_requests pattern items all_genes (S n)) as Hg.
  destruct (gene_loop _ _ _ _ _) as [[r n'] log]. cbn [snd].
  destruct Hg as (k & Hreq & _).
  exists (map xref_id (firstn k items)).
  rewrite requests_of_app, search_log_requests, Hreq, map_map. reflexivity.
Qed.

Lemma filter_search_lookups (ids : list json) :
  filter is_search_request (map LookupId ids) = [].
Proof. induction ids; [reflexivity|assumption]. Qed.

Lemma pattern_loop_searches (ps : list string) :
  forall all_genes n,
    let '(r, _, log) := pattern_loop service ps all_genes n in
    exists k,
      filter is_search_request (requests_of log)
      = map (XrefsSymbol species) (firstn k ps) /\
      forall all_genes', r = Ok all_genes' -> k = List.length ps.
Proof.
  induction ps as [|pattern rest IH]; intros all_genes n.
  - exists 0. split; reflexivity.
  - cbn [pattern_loop]. unfold bind.
    destruct (process_pattern_requests pattern all_genes n) as [ids Hids].
    destruct (process_pattern _ _ _ _) as [[[a|e] n1] l1]; cbn [snd] in Hids.
    + specialize (IH a n1).
      destruct (pattern_loop _ _ _ _) as [[r2 n2] l2].
      destruct IH as (k & Hreq & Hk).
      exists (S k). split.
      * rewrite requests_of_app, filter_app, Hids, Hreq. cbn [filter].
        cbn [is_search_request]. now rewrite filter_search_lookups.
      * intros a' Ha'. cbn [List.length]. f_equal. eauto.
    + exists 1. split.
      * rewrite Hids. cbn [filter is_search_request].
        now rewrite filter_search_lookups.
      * intros a Ha; discriminate Ha.
Qed.

Lemma main_requests (n : nat) :
  requests_of (snd (main service n))
  = requests_of (snd (collect_all_genes service n)).
Proof.
  rewrite main_eq, search_trna_synthetases_eq.
  destruct (collect_all_genes service n) as [[[all_genes|e] n'] log];
    [|reflexivity].
  destruct all_genes as [|g rest].
  - cbn [snd]. change (banner :: ?l) with ([banner] ++ l).
    rewrite !requests_of_app. cbn. now rewrite app_nil_r.
  - destruct (drop_duplicates (g :: rest)); cbn [snd]; [|reflexivity].
    change (banner :: ?l) with ([banner] ++ l).
    rewrite !requests_of_app. cbn. now rewrite app_nil_r.
Qed.

End Requests.

(** X1.  The searches of a run are for the patterns in their declared
    order, each once, all for the species homo_sapiens: in any run the
    search requests are those of the first [k] patterns, and a run that
    ends normally has searched all 37. *)
Theorem searches_follow_the_patterns
    (service : nat -> request -> http_outcome) (n : nat) :
  exists k,
    filter is_search_request (requests_of (snd (main service n)))
    = map (XrefsSymbol "homo_sapiens") (firstn k patterns) /\
    (fst (fst (main service n)) = Ok tt -> k = 37).
Proof.
  rewrite main_requests.
  pose proof (pattern_loop_searches service patterns [] n) as Hloop.
  pose proof (main_log service n) as Hmain.
  unfold collect_all_genes in *.
  destruct (main service n) as [[r n'] log].
  destruct (Hmain n' r log eq_refl) as (r0 & log0 & tail & Hc & _ & _ & _ & _ & _ & Hok).
  rewrite Hc in Hloop |- *. cbn [fst snd].
  destruct Hloop as (k & Hreq & Hk).
  exists k. split; [exact Hreq|].
  intros ->. destruct (Hok eq_refl) as [all_genes ->].
  exact (Hk all_genes eq_refl).
Qed.

(** On [three_xref_service] the run ends normally: its searches are the 37
    patterns in order. *)
Lemma searches_follow_the_patterns_witness :
  filter is_search_request (requests_of (snd (main three_xref_service 0)))
  = map (XrefsSymbol "homo_sapiens") patterns.
Proof.
  destruct (searches_follow_the_patterns three_xref_service 0)
    as (k & Hreq & Hk).
  rewrite Hreq, Hk; [reflexivity|].
  vm_compute. reflexivity.
Defined.

(** X2.  In the turn of a pattern whose search returned a list, the
    lookups are sent for the [id] of the items, in the order of the list
    ([None] for an item without [id]), after the search and with nothing
    else requested: up to the item where the turn stopped, and for all the
    items when the turn ends normally. *)
Theorem lookups_follow_the_cross_references
    (service : nat -> request -> http_outcome) (pattern : string)
    (items : list json) (all_genes : list GeneRecord) (n : nat)
    (Hitems : json_or_null (service n (XrefsSymbol species pattern))
              = JList items) :
  exists k,
    requests_of (snd (process_pattern service pattern all_genes n))
    = XrefsSymbol species pattern :: map lookup_of (firstn k items) /\
    (forall all_genes',
       fst (fst (process_pattern service pattern all_genes n)) = Ok all_genes' ->
       k = List.length items).
Proof.
  rewrite process_pattern_eq. cbv zeta. rewrite Hitems.
  destruct items as [|g items].
  { exists 0. cbn [truthy fst snd firstn map List.length].
    split; [apply search_log_requests|reflexivity]. }
  cbn [truthy iter].
  pose proof (gene_loop_requests service pattern (g :: items) all_genes (S n))
    as Hg.
  destruct (gene_loop _ _ _ _ _) as [[r n'] log]. cbn [fst snd].
  destruct Hg as (k & Hreq & Hk). exists k. split.
  - now rewrite requests_of_app, search_log_requests, Hreq.
  - exact Hk.
Qed.

(** On [three_xref_service] the turn of "AARS1" looks up [None],
    "ENSG0003" and "ENSG0001", in this order. *)
Lemma lookups_follow_the_cross_references_witness :
  requests_of (snd (process_pattern three_xref_service "AARS1" [] 0))
  = [ XrefsSymbol "homo_sapiens" "AARS1"; LookupId JNull;
      LookupId (JStr "ENSG0003"); LookupId (JStr "ENSG0001") ].
Proof.
  destruct (lookups_follow_the_cross_references three_xref_service "AARS1"
              [ JObj [("type", JStr "gene")];
                JObj [("id", JStr "ENSG0003")];
                JObj [("id", JStr "ENSG0001")] ] [] 0 eq_refl)
    as (k & Hreq & Hk).
  rewrite Hreq, (Hk [gene_record
             [ ("id", JStr "ENSG0001"); ("display_name", JStr "AARS1");
               ("seq_region_name", JStr "16"); ("start", JNum 70318116);
               ("end", JNum 70322688); ("strand", JNum 1);
               ("biotype", JStr "protein_coding");
               ("description", JStr "alanyl-tRNA synthetase 1") ]]).
  - reflexivity.
  - vm_compute. reflexivity.
Defined.

(** X3.  A run that ends normally has sent 37 searches and one lookup per
    cross-reference returned, and nothing else: 37 plus the number of
    cross-references requests in all. *)
Theorem requests_of_a_complete_run
    (service : nat -> request -> http_outcome) (n n' : nat)
    (log : list event)
    (Hrun : main service n = (Ok tt, n', log)) :
  count is_search log = 37 /\
  count is_lookup log = xrefs_returned log /\
  count is_request log = 37 + xrefs_returned log.
Proof.
  destruct (main_log _ _ _ _ _ Hrun)
    as (r0 & log0 & tail & Hc & -> & Hs & Hl & Hq & Hx & Hok).
  destruct (Hok eq_refl) as [all_genes ->].
  pose proof (pattern_loop_turns service patterns [] n) as Hturns.
  unfold collect_all_genes in Hc. rewrite Hc in Hturns.
  destruct Hturns as (_ & _ & _ & _ & Hturns).
  destruct (Hturns all_genes eq_refl) as (E1 & E2 & E3 & _).
  rewrite count_requests.
  change (banner :: log0 ++ tail) with ([banner] ++ log0 ++ tail).
  rewrite !count_app, !xrefs_returned_app, Hl, Hq, Hx, E3.
  cbn. lia.
Qed.

(** On [three_xref_service]: 37 searches and 3 lookups, 40 requests. *)
Lemma requests_of_a_complete_run_witness :
  count is_request (snd (main three_xref_service 0)) = 40.
Proof.
  assert (Hx : xrefs_returned (snd (main three_xref_service 0)) = 3)
    by (vm_compute; reflexivity).
  assert (Hr : fst (fst (main three_xref_service 0)) = Ok tt)
    by (vm_compute; reflexivity).
  destruct (main three_xref_service 0) as [[r n'] log] eqn:Hmain.
  cbn [fst snd] in *. subst r.
  destruct (requests_of_a_complete_run _ _ _ _ Hmain) as (_ & _ & Hreq).
  rewrite Hreq, Hx. reflexivity.
Defined.

(** ** Pacing *)

Lemma pacing_app (pending : bool) (l1 l2 : list event) :
  pacing pending (l1 ++ l2) =
  match pacing pending l1 with
  | Some pending' => pacing pending' l2
  | None => None
  end.
Proof.
  revert pending. induction l1 as [|e l1 IH]; intros pending; [reflexivity|].
  cbn [app pacing].
  destruct (is_lookup e); [destruct pending; [reflexivity|apply IH]|].
  destruct (is_sleep e); [destruct pending; [apply IH|reflexivity]|].
  apply IH.
Qed.

Lemma pacing_search_log (service : nat -> request -> http_outcome)
    (pattern : string) (n : nat) (pending : bool) :
  pacing pending (search_log service pattern n) = Some pending.
Proof. unfold search_log. cbn. now destruct (try_get_json _). Qed.

Lemma paced_seq {A B} (a : A) (n1 n2 : nat) (l1 l2 : list event)
    (r2 : result B) :
  paced (Ok a, n1, l1) -> paced (r2, n2, l2) -> paced (r2, n2, l1 ++ l2).
Proof.
  intros (p1 & Hp1 & Hok1) (p2 & Hp2 & Hok2).
  rewrite (Hok1 a eq_refl) in Hp1.
  exists p2. split; [|assumption].
  now rewrite pacing_app, Hp1.
Qed.

Section Pacing.

Variable service : nat -> request -> http_outcome.

Lemma process_gene_paced (pattern : string) (gene : json)
    (all_genes : list GeneRecord) (n : nat) :
  paced (process_gene service pattern gene all_genes n).
Proof.
  rewrite process_gene_eq.
  destruct (py_get gene "id") as [id|e].
  2:{ exists false. split; [reflexivity|intros a Ha; discriminate Ha]. }
  cbv zeta. destruct (try_get_json _) as [e|gene_info].
  { exists false. split; reflexivity. }
  destruct (truthy gene_info).
  - destruct (include_gene _ _ _).
    + exists false. split; reflexivity.
    + exists true. split; [reflexivity|intros a Ha; discriminate Ha].
  - exists false. split; reflexivity.
Qed.

Lemma gene_loop_paced (pattern : string) (genes : list json) :
  forall all_genes n, paced (gene_loop service pattern genes all_genes n).
Proof.
  induction genes as [|gene rest IH]; intros all_genes n.
  - exists false. split; reflexivity.
  - cbn [gene_loop]. unfold bind.
    pose proof (process_gene_paced pattern gene all_genes n) as Hg.
    destruct (process_gene _ _ _ _ _) as [[[a|e] n1] l1].
    + specialize (IH a n1).
      destruct (gene_loop _ _ _ _ _) as [[r2 n2] l2].
      exact (paced_seq _ _ _ _ _ _ Hg IH).
    + destruct Hg as (p & Hp & _). exists p.
      split; [assumption|intros a Ha; discriminate Ha].
Qed.

Lemma process_pattern_paced (pattern : string)
    (all_genes : list GeneRecord) (n : nat) :
  paced (process_pattern service pattern all_genes n).
Proof.
  rewrite process_pattern_eq. cbv zeta.
  destruct (truthy _).
  2:{ exists false. split; [apply pacing_search_log|reflexivity]. }
  destruct (iter _) as [items|e].
  2:{ exists false. split; [apply pacing_search_log|].
      intros a Ha; discriminate Ha. }
  pose proof (gene_loop_paced pattern items all_genes (S n)) as Hg.
  destruct (gene_loop _ _ _ _ _) as [[r n'] log].
  destruct Hg as (p & Hp & Hok). exists p. split; [|assumption].
  now rewrite pacing_app, pacing_search_log.
Qed.

Lemma pattern_loop_paced (ps : list string) :
  forall all_genes n, paced (pattern_loop service ps all_genes n).
Proof.
  induction ps as [|pattern rest IH]; intros all_genes n.
  - exists false. split; reflexivity.
  - cbn [pattern_loop]. unfold bind.
    pose proof (process_pattern_paced pattern all_genes n) as Hp.
    destruct (process_pattern _ _ _ _) as [[[a|e] n1] l1].
    + specialize (IH a n1).
      destruct (pattern_loop _ _ _ _) as [[r2 n2] l2].
      exact (paced_seq _ _ _ _ _ _ Hp IH).
    + destruct Hp as (p & Hp & _). exists p.
      split; [assumption|intros a Ha; discriminate Ha].
Qed.

End Pacing.

(** X4.  The lookups of a run are paced: in the log of any run, lookups
    and sleeps alternate, starting with a lookup.  No lookup is sent
    before the sleep of the one before it, no sleep happens but after a
    lookup, and when the run ends normally the last lookup has had its
    sleep. *)
Theorem lookups_are_paced
    (service : nat -> request -> http_outcome) (n : nat) :
  paced (main service n).
Proof.
  pose proof (pattern_loop_paced service patterns [] n) as Hloop.
  rewrite main_eq, search_trna_synthetases_eq. unfold collect_all_genes.
  destruct (pattern_loop _ _ _ _) as [[[all_genes|e] n'] log].
  - destruct Hloop as (p & Hp & Hok). specialize (Hok all_genes eq_refl).
    subst p.
    assert (Htail : forall tail,
               pacing false tail = Some false ->
               pacing false (banner :: log ++ tail) = Some false).
    { intros tail Htail. unfold banner. cbn [pacing is_lookup is_sleep].
      now rewrite pacing_app, Hp. }
    destruct all_genes as [|g rest].
    + exists false. split; [now apply Htail|reflexivity].
    + destruct (drop_duplicates (g :: rest)) as [df|e].
      * exists false. split; [now apply Htail|reflexivity].
      * exists false. split; [|intros a Ha; discriminate Ha].
        specialize (Htail [] eq_refl). now rewrite app_nil_r in Htail.
  - destruct Hloop as (p & Hp & _). exists p.
    split; [|intros a Ha; discriminate Ha].
    unfold banner. cbn [pacing is_lookup is_sleep]. assumption.
Qed.

(** ** Where the rows come from *)

Lemma from_lookup_app_l (l1 l2 : list event) (r : GeneRecord) :
  from_lookup l1 r -> from_lookup (l1 ++ l2) r.
Proof.
  intros (id & out & fields & Hin & Hout & Hr).
  exists id, out, fields. repeat split; try assumption.
  apply in_or_app. now left.
Qed.

Lemma from_lookup_app_r (l1 l2 : list event) (r : GeneRecord) :
  from_lookup l2 r -> from_lookup (l1 ++ l2) r.
Proof.
  intros (id & out & fields & Hin & Hout & Hr).
  exists id, out, fields. repeat split; try assumption.
  apply in_or_app. now right.
Qed.

Lemma rows_added_seq (all_genes a : list GeneRecord) (n1 n2 : nat)
    (l1 l2 : list event) (r2 : result (list GeneRecord)) :
  rows_added all_genes (Ok a, n1, l1) ->
  rows_added a (r2, n2, l2) ->
  rows_added all_genes (r2, n2, l1 ++ l2).
Proof.
  intros H1 H2 all_genes' ->.
  destruct (H1 a eq_refl) as (added1 & -> & F1 & L1).
  destruct (H2 all_genes' eq_refl) as (added2 & -> & F2 & L2).
  exists (added1 ++ added2). rewrite app_assoc. split; [reflexivity|].
  split.
  - apply Forall_app. split.
    + eapply Forall_impl; [|exact F1]. intros r. apply from_lookup_app_l.
    + eapply Forall_impl; [|exact F2]. intros r. apply from_lookup_app_r.
  - rewrite length_app, count_app. lia.
Qed.

Lemma rows_added_none (all_genes : list GeneRecord) (n : nat)
    (log : list event) :
  rows_added all_genes (Ok all_genes, n, log).
Proof.
  intros all_genes' [= <-]. exists []. rewrite app_nil_r.
  repeat split; [constructor|cbn; lia].
Qed.

Lemma rows_added_raise (all_genes : list GeneRecord) (e : exn) (n : nat)
    (log : list event) :
  rows_added all_genes (Raise e, n, log).
Proof. intros all_genes' H. discriminate H. Qed.

Section Rows.

Variable service : nat -> request -> http_outcome.

Lemma process_gene_rows (pattern : string) (gene : json)
    (all_genes : list GeneRecord) (n : nat) :
  rows_added all_genes (process_gene service pattern gene all_genes n).
Proof.
  rewrite process_gene_eq.
  destruct (py_get gene "id") as [id|e]; [|apply rows_added_raise].
  cbv zeta. destruct (try_get_json _) as [e|gene_info] eqn:Hout;
    [apply rows_added_none|].
  destruct (truthy gene_info); [|apply rows_added_none].
  destruct (include_gene _ _ _) as [all_genes'|e] eqn:Hinc;
    [|apply rows_added_raise].
  destruct (include_gene_Ok _ _ _ _ Hinc) as [->|(fields & -> & _ & ->)];
    [apply rows_added_none|].
  intros acc [= <-]. exists [gene_record fields].
  split; [reflexivity|]. split; [|cbn; lia].
  constructor; [|constructor].
  exists id, (service n (LookupId id)), fields.
  repeat split; [now left|assumption].
Qed.

Lemma gene_loop_rows (pattern : string) (genes : list json) :
  forall all_genes n,
    rows_added all_genes (gene_loop service pattern genes all_genes n).
Proof.
  induction genes as [|gene rest IH]; intros all_genes n.
  - apply rows_added_none.
  - cbn [gene_loop]. unfold bind.
    pose proof (process_gene_rows pattern gene all_genes n) as Hg.
    destruct (process_gene _ _ _ _ _) as [[[a|e] n1] l1];
      [|apply rows_added_raise].
    specialize (IH a n1).
    destruct (gene_loop _ _ _ _ _) as [[r2 n2] l2].
    exact (rows_added_seq _ _ _ _ _ _ _ Hg IH).
Qed.

Lemma process_pattern_rows (pattern : string)
    (all_genes : list GeneRecord) (n : nat) :
  rows_added all_genes (process_pattern service pattern all_genes n).
Proof.
  rewrite process_pattern_eq. cbv zeta.
  destruct (truthy _); [|apply rows_added_none].
  destruct (iter _) as [items|e]; [|apply rows_added_raise].
  pose proof (gene_loop_rows pattern items all_genes (S n)) as Hg.
  destruct (gene_loop _ _ _ _ _) as [[r n'] log].
  exact (rows_added_seq _ _ (S n) _ _ _ _
           (rows_added_none all_genes (S n) _) Hg).
Qed.

Lemma pattern_loop_rows (ps : list string) :
  forall all_genes n,
    rows_added all_genes (pattern_loop service ps all_genes n).
Proof.
  induction ps as [|pattern rest IH]; intros all_genes n.
  - apply rows_added_none.
  - cbn [pattern_loop]. unfold bind.
    pose proof (process_pattern_rows pattern all_genes n) as Hp.
    destruct (process_pattern _ _ _ _) as [[[a|e] n1] l1];
      [|apply rows_added_raise].
    specialize (IH a n1).
    destruct (pattern_loop _ _ _ _) as [[r2 n2] l2].
    exact (rows_added_seq _ _ _ _ _ _ _ Hp IH).
Qed.

End Rows.

(** ** The order of the table *)

Lemma subsequence_In {A} (kept rows : list A) :
  subsequence kept rows -> forall x, In x kept -> In x rows.
Proof.
  induction 1 as [|x kept rows _ IH|x kept rows _ IH]; intros y Hy.
  - destruct Hy.
  - destruct Hy as [<-|Hy]; [now left|right; auto].
  - right; auto.
Qed.

Lemma subsequence_length {A} (kept rows : list A) :
  subsequence kept rows -> List.length kept <= List.length rows.
Proof. induction 1; cbn; lia. Qed.

Lemma keep_first_subsequence (rows : list GeneRecord) :
  forall seen kept, keep_first seen rows = Ok kept -> subsequence kept rows.
Proof.
  induction rows as [|r rest IH]; intros seen kept H.
  - injection H as <-. constructor.
  - destruct (keep_first_cons _ _ _ _ H)
      as (k & Hk & [[Hs Hrest]|(Hs & kept' & Hrest & ->)]).
    + apply subsequence_drop. eauto.
    + apply subsequence_keep. eauto.
Qed.

Lemma drop_duplicates_head (r : GeneRecord) (rest df : list GeneRecord) :
  drop_duplicates (r :: rest) = Ok df -> exists df', df = r :: df'.
Proof.
  unfold drop_duplicates. intros H.
  destruct (keep_first_cons _ _ _ _ H)
    as (k & Hk & [[Hs _]|(_ & kept' & _ & ->)]); [discriminate Hs|eauto].
Qed.

(** X5.  Every row of the table returned by the search is built from a
    dict that a lookup of this run returned: the search makes up no row and
    takes none from a search response.  The table has at most one row per
    lookup sent. *)
Theorem table_rows_come_from_lookups
    (service : nat -> request -> http_outcome) (n n' : nat)
    (df : list GeneRecord) (log : list event)
    (Hrun : search_trna_synthetases service n = (Ok (Some df), n', log)) :
  Forall (from_lookup log) df /\
  List.length df <= count is_lookup log.
Proof.
  destruct (final_table _ _ _ _ _ Hrun) as (all_genes & Hc & Hd).
  pose proof (pattern_loop_rows service patterns [] n) as Hrows.
  unfold collect_all_genes in Hc. rewrite Hc in Hrows.
  destruct (Hrows all_genes eq_refl) as (added & -> & Hfrom & Hlen).
  cbn [app] in Hd.
  pose proof (keep_first_subsequence _ _ _ Hd) as Hsub.
  split.
  - rewrite Forall_forall in *. intros r Hr. apply Hfrom.
    exact (subsequence_In _ _ Hsub r Hr).
  - pose proof (subsequence_length _ _ Hsub). lia.
Qed.

(** In the scenario of the specification the one row of the table is the
    row of the lookup of "ENSG0001". *)
Lemma table_rows_come_from_lookups_witness :
  exists df log,
    snd (search_trna_synthetases (one_gene_service aars1_info) 0) = log /\
    fst (fst (search_trna_synthetases (one_gene_service aars1_info) 0))
    = Ok (Some df) /\
    Forall (from_lookup log) df /\
    List.length df <= 1.
Proof.
  assert (Hl : count is_lookup
                 (snd (search_trna_synthetases
                         (one_gene_service aars1_info) 0)) = 1)
    by (vm_compute; reflexivity).
  assert (Hr : exists df,
             fst (fst (search_trna_synthetases
                         (one_gene_service aars1_info) 0)) = Ok (Some df))
    by (vm_compute; eexists; reflexivity).
  destruct Hr as [df Hr].
  destruct (search_trna_synthetases (one_gene_service aars1_info) 0)
    as [[r n'] log] eqn:Hrun.
  cbn [fst snd] in *. subst r.
  destruct (table_rows_come_from_lookups _ _ _ _ _ Hrun) as [Hfrom Hlen].
  exists df, log. repeat split; try assumption. lia.
Defined.

(** X6.  Removing the duplicates does not reorder: the table returned is
    the list of rows collected with some rows left out and the others in
    the order of the traversal, and its first row is the first row
    collected. *)
Theorem table_keeps_the_traversal_order
    (service : nat -> request -> http_outcome) (n n' : nat)
    (df : list GeneRecord) (log : list event)
    (Hrun : search_trna_synthetases service n = (Ok (Some df), n', log)) :
  exists all_genes,
    collect_all_genes service n = (Ok all_genes, n', log) /\
    subsequence df all_genes /\
    hd_error df = hd_error all_genes.
Proof.
  destruct (final_table _ _ _ _ _ Hrun) as (all_genes & Hc & Hd).
  exists all_genes. split; [assumption|]. split.
  - exact (keep_first_subsequence _ _ _ Hd).
  - destruct all_genes as [|r rest].
    + injection Hd as <-. reflexivity.
    + destruct (drop_duplicates_head _ _ _ Hd) as [df' ->]. reflexivity.
Qed.

(** With two patterns on one gene the rows collected are those of the two
    lookups; the table is the first of them. *)
Lemma table_keeps_the_traversal_order_witness :
  exists df all_genes,
    fst (fst (search_trna_synthetases shared_gene_service 0)) = Ok (Some df) /\
    fst (fst (collect_all_genes shared_gene_service 0)) = Ok all_genes /\
    List.length all_genes = 2 /\
    subsequence df all_genes /\
    hd_error df = hd_error all_genes.
Proof.
  assert (Hr : exists df,
             fst (fst (search_trna_synthetases shared_gene_service 0))
             = Ok (Some df))
    by (vm_compute; eexists; reflexivity).
  destruct Hr as [df Hr].
  assert (Hlen : forall all_genes,
             fst (fst (collect_all_genes shared_gene_service 0))
             = Ok all_genes -> List.length all_genes = 2).
  { vm_compute. intros all_genes [= <-]. reflexivity. }
  destruct (search_trna_synthetases shared_gene_service 0)
    as [[r n'] log] eqn:Hrun.
  cbn [fst] in Hr. subst r.
  destruct (table_keeps_the_traversal_order _ _ _ _ _ Hrun)
    as (all_genes & Hc & Hsub & Hhd).
  exists df, all_genes. rewrite Hc in *. cbn [fst] in *.
  repeat split; auto.
Defined.

(** X7.  When the search returns, it returns [None] exactly when no row
    was collected; a table it returns is never empty and has no more rows
    than were collected. *)
Theorem search_returns_none_iff_nothing_collected
    (service : nat -> request -> http_outcome) (n n' : nat)
    (results : option (list GeneRecord)) (log : list event)
    (Hrun : search_trna_synthetases service n = (Ok results, n', log)) :
  exists all_genes,
    collect_all_genes service n = (Ok all_genes, n', log) /\
    (results = None <-> all_genes = []) /\
    (forall df, results = Some df ->
       df <> [] /\ List.length df <= List.length all_genes).
Proof.
  rewrite search_trna_synthetases_eq in Hrun.
  destruct (collect_all_genes service n) as [[[all_genes|e] m] l];
    [|discriminate].
  destruct all_genes as [|r rest].
  - injection Hrun as <- <- <-. exists []. split; [reflexivity|].
    split; [tauto|]. intros df Hdf. discriminate Hdf.
  - destruct (drop_duplicates (r :: rest)) as [kept|e] eqn:Hd;
      [|discriminate].
    injection Hrun as <- <- <-. exists (r :: rest).
    split; [reflexivity|]. split.
    + split; intros H; discriminate H.
    + intros df [= <-].
      destruct (drop_duplicates_head _ _ _ Hd) as [df' ->].
      split; [discriminate|].
      exact (subsequence_length _ _ (keep_first_subsequence _ _ _ Hd)).
Qed.

(** Without a service nothing is collected and the search returns
    [None]. *)
Lemma search_returns_none_iff_nothing_collected_witness :
  fst (fst (collect_all_genes no_service 0)) = Ok [].
Proof.
  assert (Hr : fst (fst (search_trna_synthetases no_service 0)) = Ok None)
    by (vm_compute; reflexivity).
  destruct (search_trna_synthetases no_service 0) as [[r n'] log] eqn:Hrun.
  cbn [fst] in Hr. subst r.
  destruct (search_returns_none_iff_nothing_collected _ _ _ _ _ Hrun)
    as (all_genes & Hc & Hnone & _).
  rewrite Hc. cbn [fst]. f_equal. now apply Hnone.
Defined.

(** ** The file written *)

Lemma count_zero_filter (p : event -> bool) (log : list event) :
  count p log = 0 -> filter p log = [].
Proof. unfold count. now destruct (filter p log). Qed.



(** ** Responses of the wrong shape *)

(** X9.  A search that returns something true that is not a list stops the
    run in the turn of its pattern, before any lookup: a dict or a string
    is iterated and its first item has no [get] ([AttributeError]), a
    number or [true] is not iterable ([TypeError]). *)
Theorem search_result_not_a_list_raises
    (service : nat -> request -> http_outcome) (pattern : string)
    (all_genes : list GeneRecord) (n : nat) (genes : json)
    (Hgenes : json_or_null (service n (XrefsSymbol species pattern)) = genes)
    (Htrue : truthy genes = true)
    (Hshape : forall items, genes <> JList items) :
  process_pattern service pattern all_genes n =
  (Raise (match genes with
          | JStr _ | JObj _ => AttributeError
          | _ => TypeError
          end),
   S n, search_log service pattern n).
Proof.
  rewrite process_pattern_eq. cbv zeta. rewrite Hgenes, Htrue.
  destruct genes as [| | |s|items|fields]; try reflexivity.
  - destruct s as [|c s]; [discriminate Htrue|].
    cbn [iter list_ascii_of_string map]. rewrite gene_loop_str.
    now rewrite app_nil_r.
  - now destruct (Hshape items).
  - destruct fields as [|[k v] fields]; [discriminate Htrue|].
    cbn [iter map fst]. rewrite gene_loop_str. now rewrite app_nil_r.
Qed.

(** A service that answers 200 with an error object stops the run at the
    first pattern, after one request. *)
Lemma search_result_not_a_list_raises_witness :
  process_pattern error_body_service "AARS1" [] 0
  = (Raise AttributeError, 1, search_log error_body_service "AARS1" 0) /\
  fst (main error_body_service 0) = (Raise AttributeError, 1).
Proof.
  split.
  - apply (search_result_not_a_list_raises error_body_service "AARS1" [] 0
             (JObj [("error", JStr "page not found")])).
    + reflexivity.
    + reflexivity.
    + discriminate.
  - vm_compute. reflexivity.
Defined.

Lemma gene_loop_app (service : nat -> request -> http_outcome)
    (pattern : string) (pre post : list json) :
  forall all_genes n,
    gene_loop service pattern (pre ++ post) all_genes n =
    bind (gene_loop service pattern pre all_genes)
         (fun a => gene_loop service pattern post a) n.
Proof.
  induction pre as [|g pre IH]; intros all_genes n.
  - cbn. unfold bind, ret. cbn.
    now destruct (gene_loop service pattern post all_genes n) as [[r m] l].
  - cbn [app gene_loop]. unfold bind.
    destruct (process_gene _ _ _ _ _) as [[[a|e] n1] l1]; [|reflexivity].
    rewrite IH. unfold bind.
    destruct (gene_loop service pattern pre a n1) as [[[a'|e'] n2] l2];
      [|reflexivity].
    destruct (gene_loop service pattern post a' n2) as [[r3 n3] l3].
    now rewrite app_assoc.
Qed.

(** X10.  A cross-reference that is not a dict stops the inner loop with
    [AttributeError] when its turn comes: the items before it have been
    looked up, no request is sent for it nor for the items after it, and
    the rows collected so far are not returned. *)
Theorem item_not_a_dict_stops_the_loop
    (service : nat -> request -> http_outcome) (pattern : string)
    (pre post : list json) (gene : json)
    (all_genes all_genes1 : list GeneRecord) (n n1 : nat) (log1 : list event)
    (Hpre : gene_loop service pattern pre all_genes n
            = (Ok all_genes1, n1, log1))
    (Hgene : is_dict gene = false) :
  gene_loop service pattern (pre ++ gene :: post) all_genes n
  = (Raise AttributeError, n1, log1).
Proof.
  rewrite gene_loop_app. unfold bind. rewrite Hpre.
  cbn [gene_loop]. unfold bind. rewrite process_gene_eq.
  destruct gene; try discriminate Hgene; cbn [py_get];
    now rewrite app_nil_r.
Qed.

(** A list with a dict, then a string, then a dict: one lookup, then the
    exception. *)
Lemma item_not_a_dict_stops_the_loop_witness :
  exists log,
    gene_loop (one_gene_service aars1_info) "AARS1"
      [ JObj [("id", JStr "ENSG0001")]; JStr "ENSG0002";
        JObj [("id", JStr "ENSG0003")] ] [] 1
    = (Raise AttributeError, 2, log) /\
    count is_lookup log = 1.
Proof.
  assert (Hr : exists rows,
             fst (fst (gene_loop (one_gene_service aars1_info) "AARS1"
                         [JObj [("id", JStr "ENSG0001")]] [] 1)) = Ok rows)
    by (vm_compute; eexists; reflexivity).
  assert (Hn : snd (fst (gene_loop (one_gene_service aars1_info) "AARS1"
                           [JObj [("id", JStr "ENSG0001")]] [] 1)) = 2)
    by (vm_compute; reflexivity).
  assert (Hl : count is_lookup
                 (snd (gene_loop (one_gene_service aars1_info) "AARS1"
                         [JObj [("id", JStr "ENSG0001")]] [] 1)) = 1)
    by (vm_compute; reflexivity).
  destruct Hr as [rows Hr].
  destruct (gene_loop (one_gene_service aars1_info) "AARS1"
              [JObj [("id", JStr "ENSG0001")]] [] 1)
    as [[r n1] log1] eqn:Hpre.
  cbn [fst snd] in *. subst r n1.
  exists log1. split; [|assumption].
  exact (item_not_a_dict_stops_the_loop (one_gene_service aars1_info)
           "AARS1" [JObj [("id", JStr "ENSG0001")]]
           [JObj [("id", JStr "ENSG0003")]] (JStr "ENSG0002")
           [] rows 1 2 log1 Hpre eq_refl).
Defined.

(** X11.  The turn of a cross-reference raises in these cases and in no
    other: the cross-reference is not a dict; its lookup returns something
    true that is not a dict; its lookup returns a non-empty dict whose
    [display_name] is missing, null, a boolean or a number.  What the
    other fields of the lookup are, and whether the lookup failed, never
    makes the turn raise. *)
Theorem turn_raises_exactly_when
    (service : nat -> request -> http_outcome) (pattern : string)
    (gene : json) (all_genes : list GeneRecord) (n : nat) :
  let gene_info := json_or_null (service n (LookupId (xref_id gene))) in
  (exists e,
     fst (fst (process_gene service pattern gene all_genes n)) = Raise e)
  <-> turn_raises gene gene_info = true.
Proof.
  cbv zeta. rewrite process_gene_eq. unfold turn_raises, json_or_null.
  destruct gene as [| | | | |xref]; cbn [py_get is_dict negb orb xref_id];
    try (split; [reflexivity|intros _; eexists; reflexivity]).
  cbv zeta.
  destruct (try_get_json _) as [e|gene_info]; cbn [truthy andb fst].
  { split; [intros [e' He']; discriminate He'|discriminate]. }
  destruct (truthy gene_info) eqn:Ht; cbn [andb fst].
  2:{ split; [intros [e' He']; discriminate He'|discriminate]. }
  destruct gene_info as [| | | | |fields];
    try (cbn; split; [reflexivity|intros _; eexists; reflexivity]).
  rewrite include_gene_eq.
  destruct (dict_get fields "display_name") as [| | |s|l|o];
    cbn [py_in is_container negb fst];
    try (split; [reflexivity|intros _; eexists; reflexivity]).
  - destruct (contains pattern s); [destruct (on_standard_chromosome _)|];
      cbn [fst]; (split; [intros [e' He']; discriminate He'|discriminate]).
  - destruct (existsb _ l); [destruct (on_standard_chromosome _)|];
      cbn [fst]; (split; [intros [e' He']; discriminate He'|discriminate]).
  - destruct (existsb _ o); [destruct (on_standard_chromosome _)|];
      cbn [fst]; (split; [intros [e' He']; discriminate He'|discriminate]).
Qed.

(** The run on [shared_gene_service], a well-formed service. *)
Lemma main_ends_normally_witness :
  exists n' log, main shared_gene_service 0 = (Ok tt, n', log).
Proof.
  apply main_ends_normally.
  intros n [sp query|id]; cbn.
  - destruct (_ || _); reflexivity.
  - destruct (Nat.eqb n 1); reflexivity.
Defined.

(** ** The URLs *)

Lemma string_length_append (a b : string) :
  String.length (a ++ b)%string = String.length a + String.length b.
Proof. induction a as [|c a IH]; cbn; [reflexivity|now rewrite IH]. Qed.

Lemma append_cancel_r (b x : string) :
  forall y, (x ++ b)%string = (y ++ b)%string -> x = y.
Proof.
  induction x as [|c x IH]; intros y H.
  - apply (f_equal String.length) in H.
    rewrite !string_length_append in H.
    destruct y; [reflexivity|cbn in H; lia].
  - destruct y as [|d y].
    + apply (f_equal String.length) in H.
      rewrite !string_length_append in H. cbn in H. lia.
    + cbn in H. injection H as -> H. f_equal. auto.
Qed.

Lemma lookup_url_eq (gene_id : json) :
  url_of (LookupId gene_id) =
  option_map (fun id => ("https://rest.ensembl.org/lookup/id/"
                         ++ id ++ "?expand=1")%string)
             (py_str gene_id).
Proof.
  unfold url_of, EnsemblAPI.lookup_endpoint, EnsemblAPI.url.
  now destruct (py_str gene_id).
Qed.

Lemma search_url_eq (query : string) :
  url_of (XrefsSymbol species query) =
  Some ("https://rest.ensembl.org/xrefs/symbol/homo_sapiens/"
        ++ query ++ "?")%string.
Proof. reflexivity. Qed.

(** X15.  The searches of a run go to
    https://rest.ensembl.org/xrefs/symbol/homo_sapiens/<query>? with the
    query as it is: two queries have the same URL only if they are the same
    query, and no search has the URL of a lookup. *)
Theorem search_urls_tell_queries_apart :
  (forall q1 q2,
     url_of (XrefsSymbol species q1) = url_of (XrefsSymbol species q2) ->
     q1 = q2) /\
  (forall q gene_id,
     url_of (XrefsSymbol species q) <> url_of (LookupId gene_id)).
Proof.
  split.
  - intros q1 q2. rewrite !search_url_eq. intros [= H].
    exact (append_cancel_r _ _ _ H).
  - intros q gene_id. rewrite search_url_eq, lookup_url_eq.
    destruct (py_str gene_id) as [id|]; cbn; discriminate.
Qed.

(** The URLs of the searches for "AARS1" and "AARS2" differ. *)
Lemma search_urls_tell_queries_apart_witness :
  url_of (XrefsSymbol species "AARS1") <> url_of (XrefsSymbol species "AARS2").
Proof.
  intros H.
  apply (proj1 search_urls_tell_queries_apart "AARS1" "AARS2") in H.
  discriminate H.
Defined.

(** X16.  The URL of a lookup has the text of the id between
    https://rest.ensembl.org/lookup/id/ and ?expand=1: two lookups have the
    same URL exactly when their ids have the same text (for ids that are
    null, booleans, integers or strings).  A cross-reference whose [id] is
    missing or null is looked up at .../lookup/id/None?expand=1, the URL of
    the id "None". *)
Theorem lookup_url_is_the_text_of_the_id :
  (forall a b text,
     py_str a = Some text ->
     (url_of (LookupId a) = url_of (LookupId b) <-> py_str b = Some text)) /\
  (forall fields,
     dict_get fields "id" = JNull ->
     url_of (lookup_of (JObj fields))
     = Some "https://rest.ensembl.org/lookup/id/None?expand=1" /\
     url_of (lookup_of (JObj fields)) = url_of (LookupId (JStr "None"))).
Proof.
  split.
  - intros a b text Ha. rewrite !lookup_url_eq, Ha. cbn [option_map].
    split.
    + destruct (py_str b) as [t|]; cbn [option_map]; [|discriminate].
      intros [= H]. apply append_cancel_r in H. now subst.
    + intros ->. reflexivity.
  - intros fields Hid. unfold lookup_of, xref_id. rewrite Hid.
    split; reflexivity.
Qed.

(** A cross-reference without [id], and the ids 1 and "1". *)
Lemma lookup_url_is_the_text_of_the_id_witness :
  url_of (lookup_of (JObj [("type", JStr "gene")]))
  = Some "https://rest.ensembl.org/lookup/id/None?expand=1" /\
  url_of (LookupId (JNum 1)) = url_of (LookupId (JStr "1")).
Proof.
  destruct lookup_url_is_the_text_of_the_id as [Hsame Hmissing].
  split.
  - exact (proj1 (Hmissing [("type", JStr "gene")] eq_refl)).
  - apply (Hsame (JNum 1) (JStr "1") "1"%string); reflexivity.
Defined.

(** ** A run that raises *)

Lemma search_writes_nothing (service : nat -> request -> http_outcome)
    (n : nat) :
  count is_to_csv (snd (search_trna_synthetases service n)) = 0.
Proof.
  rewrite search_trna_synthetases_eq.
  pose proof (pattern_loop_turns service patterns [] n) as Hturns.
  unfold collect_all_genes.
  destruct (pattern_loop _ _ _ _) as [[r0 m0] l0].
  destruct Hturns as (_ & _ & _ & Hzero & _).
  destruct r0 as [[|g rest]|e0]; try exact Hzero.
  destruct (drop_duplicates (g :: rest)); exact Hzero.
Qed.

(** X17.  A run that raises writes no file: when an exception escapes
    [main], it escaped the search, and the log of the run is the banner and
    what the search did, with no CSV file and no table printed. *)
Theorem a_run_that_raises_writes_nothing
    (service : nat -> request -> http_outcome) (n n' : nat) (e : exn)
    (log : list event)
    (Hrun : main service n = (Raise e, n', log)) :
  exists log1,
    search_trna_synthetases service n = (Raise e, n', log1) /\
    log = banner :: log1 /\
    filter is_to_csv log = [] /\
    forall rows, ~ In (PrintFrame rows) log.
Proof.
  rewrite main_eq in Hrun.
  pose proof (search_writes_nothing service n) as Hcsv.
  pose proof (pattern_loop_turns service patterns [] n) as Hturns.
  destruct (search_trna_synthetases service n) as [[[results|e1] m] log1]
    eqn:Hsearch; [destruct results; discriminate Hrun|].
  injection Hrun as <- <- <-. cbn [snd] in Hcsv.
  exists log1. repeat split.
  - apply count_zero_filter.
    change (banner :: log1) with ([banner] ++ log1).
    now rewrite count_app, Hcsv.
  - intros rows [Hin|Hin]; [discriminate Hin|].
    rewrite search_trna_synthetases_eq in Hsearch.
    unfold collect_all_genes in Hsearch.
    assert (Hframe : forall ps all_genes k,
               ~ In (PrintFrame rows)
                    (snd (pattern_loop service ps all_genes k))).
    { clear. induction ps as [|pattern rest IH]; intros all_genes k;
        [intros []|].
      cbn [pattern_loop]. unfold bind. rewrite process_pattern_eq. cbv zeta.
      assert (Hsl : ~ In (PrintFrame rows) (search_log service pattern k)).
      { unfold search_log. destruct (try_get_json _); cbn; intuition discriminate. }
      assert (Hgl : forall genes acc j,
                 ~ In (PrintFrame rows)
                      (snd (gene_loop service pattern genes acc j))).
      { clear. induction genes as [|gene genes IHg]; intros acc j;
          [intros []|].
        cbn [gene_loop]. unfold bind. rewrite process_gene_eq.
        destruct (py_get gene "id"); [|intros []]. cbv zeta.
        assert (Hrest : forall a l,
                   ~ In (PrintFrame rows) l ->
                   ~ In (PrintFrame rows)
                        (snd (let '(r, n2, l2) :=
                                gene_loop service pattern genes a (S j) in
                              (r, n2, l ++ l2)))).
        { intros a0 l Hl. specialize (IHg a0 (S j)).
          destruct (gene_loop _ _ _ _ _) as [[r2 n2] l2]. cbn [snd] in *.
          intros Hin. apply in_app_or in Hin. tauto. }
        destruct (try_get_json _).
        - apply Hrest. cbn. intuition discriminate.
        - destruct (truthy _).
          + destruct (include_gene _ _ _).
            * apply Hrest. cbn. intuition discriminate.
            * cbn. intuition discriminate.
          + apply Hrest. cbn. intuition discriminate. }
      destruct (truthy _).
      - destruct (iter _) as [items|e0]; [|exact Hsl].
        specialize (Hgl items all_genes (S k)).
        destruct (gene_loop _ _ _ _ _) as [[[a|e0] n1] l1]; cbn [snd] in *.
        + specialize (IH a n1).
          destruct (pattern_loop _ _ _ _) as [[r2 n2] l2]. cbn [snd] in *.
          intros Hin. apply in_app_or in Hin. destruct Hin as [Hin|Hin];
            [|tauto].
          apply in_app_or in Hin. tauto.
        + intros Hin. apply in_app_or in Hin. tauto.
      - specialize (IH all_genes (S k)).
        destruct (pattern_loop _ _ _ _) as [[r2 n2] l2]. cbn [snd] in *.
        intros Hin. apply in_app_or in Hin. tauto. }
    specialize (Hframe patterns [] n).
    destruct (pattern_loop _ _ _ _) as [[[all_genes|e0] m0] l0];
      cbn [snd] in Hframe.
    + destruct all_genes as [|g rest]; [discriminate Hsearch|].
      destruct (drop_duplicates (g :: rest)); [discriminate Hsearch|].
      injection Hsearch as _ _ <-. exact (Hframe Hin).
    + injection Hsearch as _ _ <-. exact (Hframe Hin).
Qed.

(** The run on the lookup without [display_name]. *)
Lemma a_run_that_raises_writes_nothing_witness :
  filter is_to_csv
    (snd (main (one_gene_service info_without_display_name) 0)) = [].
Proof.
  assert (Hr : fst (fst (main (one_gene_service info_without_display_name) 0))
               = Raise TypeError)
    by (vm_compute; reflexivity).
  destruct (main (one_gene_service info_without_display_name) 0)
    as [[r n'] log] eqn:Hmain.
  cbn [fst snd] in *. subst r.
  destruct (a_run_that_raises_writes_nothing _ _ _ _ _ Hmain)
    as (log1 & _ & _ & Hcsv & _).
  exact Hcsv.
Defined.

(** ** Failures and their lines *)

Lemma failures_reported_app (l1 l2 : list event) :
  failures_reported l1 -> failures_reported l2 ->
  failures_reported (l1 ++ l2).
Proof.
  unfold failures_reported. intros H1 H2. rewrite !count_app. lia.
Qed.

Section Failures.

Variable service : nat -> request -> http_outcome.

Lemma process_gene_failures (pattern : string) (gene : json)
    (all_genes : list GeneRecord) (n : nat) :
  failures_reported (snd (process_gene service pattern gene all_genes n)).
Proof.
  rewrite process_gene_eq. unfold failures_reported.
  destruct (py_get gene "id") as [id|e]; [|reflexivity].
  cbv zeta. destruct (try_get_json _) as [e|gene_info] eqn:Hout.
  { unfold count. cbn. now rewrite Hout. }
  destruct (truthy gene_info).
  - destruct (include_gene _ _ _); unfold count; cbn; now rewrite Hout.
  - unfold count. cbn. now rewrite Hout.
Qed.

Lemma gene_loop_failures (pattern : string) (genes : list json) :
  forall all_genes n,
    failures_reported (snd (gene_loop service pattern genes all_genes n)).
Proof.
  induction genes as [|gene rest IH]; intros all_genes n; [reflexivity|].
  cbn [gene_loop]. unfold bind.
  pose proof (process_gene_failures pattern gene all_genes n) as Hg.
  destruct (process_gene _ _ _ _ _) as [[[a|e] n1] l1]; [|exact Hg].
  specialize (IH a n1).
  destruct (gene_loop _ _ _ _ _) as [[r2 n2] l2].
  now apply failures_reported_app.
Qed.

Lemma search_log_failures (pattern : string) (n : nat) :
  failures_reported (search_log service pattern n).
Proof.
  unfold failures_reported, search_log, count. cbn.
  destruct (try_get_json _); reflexivity.
Qed.

Lemma process_pattern_failures (pattern : string)
    (all_genes : list GeneRecord) (n : nat) :
  failures_reported (snd (process_pattern service pattern all_genes n)).
Proof.
  rewrite process_pattern_eq. cbv zeta.
  destruct (truthy _); [|apply search_log_failures].
  destruct (iter _) as [items|e]; [|apply search_log_failures].
  pose proof (gene_loop_failures pattern items all_genes (S n)) as Hg.
  destruct (gene_loop _ _ _ _ _) as [[r n'] log].
  apply failures_reported_app; [apply search_log_failures|exact Hg].
Qed.

Lemma pattern_loop_failures (ps : list string) :
  forall all_genes n,
    failures_reported (snd (pattern_loop service ps all_genes n)).
Proof.
  induction ps as [|pattern rest IH]; intros all_genes n; [reflexivity|].
  cbn [pattern_loop]. unfold bind.
  pose proof (process_pattern_failures pattern all_genes n) as Hp.
  destruct (process_pattern _ _ _ _) as [[[a|e] n1] l1]; [|exact Hp].
  specialize (IH a n1).
  destruct (pattern_loop _ _ _ _) as [[r2 n2] l2].
  now apply failures_reported_app.
Qed.

End Failures.

Lemma client_gave_up_eq (e : event) :
  client_gave_up e = is_failed_request e.
Proof.
  destruct e as [req [why|status_code body]| | | | |]; try reflexivity.
  cbn. unfold is_error_status.
  destruct ((400 <=? status_code)%Z && (status_code <? 600)%Z);
    [reflexivity|]. now destruct body.
Qed.

Lemma count_ext (p q : event -> bool) (log : list event) :
  (forall e, p e = q e) -> count p log = count q log.
Proof. intros H. unfold count. now rewrite (filter_ext p q H). Qed.

(** X18.  Every failed request is reported, once: in any run the number of
    diagnostic lines ("Error querying Ensembl: ..." and "Error fetching
    gene info: ...") is the number of requests that got no response, a
    status code from 400 to 599 or a body that is not JSON.  No failure is
    silent and no diagnostic is printed without one. *)
Theorem every_failure_is_reported
    (service : nat -> request -> http_outcome) (n : nat) :
  count is_diagnostic (snd (main service n))
  = count is_failed_request (snd (main service n)).
Proof.
  rewrite <- (count_ext client_gave_up is_failed_request _ client_gave_up_eq).
  pose proof (pattern_loop_failures service patterns [] n) as Hloop.
  rewrite main_eq, search_trna_synthetases_eq. unfold collect_all_genes.
  destruct (pattern_loop _ _ _ _) as [[[all_genes|e] n'] log];
    cbn [snd] in Hloop; [|exact Hloop].
  destruct all_genes as [|g rest].
  - cbn [snd]. change (banner :: ?l) with ([banner] ++ l).
    rewrite !count_app. unfold failures_reported in Hloop.
    rewrite Hloop. reflexivity.
  - destruct (drop_duplicates (g :: rest)); cbn [snd].
    + change (banner :: ?l) with ([banner] ++ l).
      rewrite !count_app. unfold failures_reported in Hloop.
      rewrite Hloop. reflexivity.
    + exact Hloop.
Qed.

(** ** A gene_id that cannot be hashed *)



